(** * Lemon Squeezy webhook handler ([src/pages/api/hooks/ls.ts])

    A shallow embedding of the Next.js API route [handler] together with
    the parts of the Node.js runtime that it calls:

    - [Buffer.prototype.toString('utf-8')] and [Buffer.from(s, 'utf8')]
      (module [Utf8]),
    - [crypto.createHmac('sha256', key).update(s).digest('hex')]
      (modules [Sha256] and [Hmac]),
    - [crypto.timingSafeEqual],
    - [JSON.parse] (module [Json]),
    - object destructuring, strict equality and template literals on the
      parsed value.

    Buffers are lists of bytes (integers in [0, 256)), JavaScript strings
    are lists of UTF-16 code units (integers in [0, 65536)).  The handler
    itself lives in module [Handler]; it runs in a small monad that
    records the calls made to the runtime and carries thrown values.

    [buffer(req)] is a function of the package micro.  A request carries
    what awaiting it gives: the promise is rejected, or it resolves with
    a Buffer or with a string. *)

From Stdlib Require Import String Ascii DecimalString.
From Stdlib Require Import ZArith List Bool Lia.
Import ListNotations.
Local Open Scope Z_scope.

(** ** Buffers and JavaScript strings *)

Definition bytes := list Z.
Definition jsstring := list Z.

(** A string literal of the source, as code units (ASCII only). *)
Definition lit (s : string) : jsstring :=
  map (fun a => Z.of_N (N_of_ascii a)) (list_ascii_of_string s).

Arguments lit s%_string.

(** The same, with the apostrophe standing for the double quote, for
    writing JSON texts. *)
Definition dq (s : string) : jsstring :=
  map (fun c => if c =? 39 then 34 else c) (lit s).

Arguments dq s%_string.

Definition in_range (lo hi x : Z) : bool := (lo <=? x) && (x <=? hi).

Definition jsstring_eqb (s t : jsstring) : bool :=
  if list_eq_dec Z.eq_dec s t then true else false.

(** ** UTF-8 *)

Module Utf8.

(** *** Encoding: [Buffer.from(s, 'utf8')] and [hmac.update(s)]

    A surrogate pair becomes one four-byte sequence, a lone surrogate
    becomes U+FFFD (EF BF BD). *)

Definition is_high_surrogate (u : Z) : bool := in_range 0xD800 0xDBFF u.
Definition is_low_surrogate (u : Z) : bool := in_range 0xDC00 0xDFFF u.

Definition replacement : bytes := [0xEF; 0xBF; 0xBD].

Definition encode2 (c : Z) : bytes := [0xC0 + c / 64; 0x80 + c mod 64].

Definition encode3 (c : Z) : bytes :=
  [0xE0 + c / 4096; 0x80 + (c / 64) mod 64; 0x80 + c mod 64].

Definition encode4 (c : Z) : bytes :=
  [0xF0 + c / 262144; 0x80 + (c / 4096) mod 64;
   0x80 + (c / 64) mod 64; 0x80 + c mod 64].

Definition pair_code_point (hi lo : Z) : Z :=
  0x10000 + (hi - 0xD800) * 1024 + (lo - 0xDC00).

Fixpoint encode (s : jsstring) : bytes :=
  match s with
  | [] => []
  | u :: rest =>
      if u <? 0x80 then u :: encode rest
      else if u <? 0x800 then encode2 u ++ encode rest
      else if is_high_surrogate u then
        match rest with
        | v :: rest' =>
            if is_low_surrogate v
            then encode4 (pair_code_point u v) ++ encode rest'
            else replacement ++ encode rest
        | [] => replacement
        end
      else if is_low_surrogate u then replacement ++ encode rest
      else encode3 u ++ encode rest
  end.

(** *** Decoding: [buf.toString('utf-8')]

    The decoder of the WHATWG Encoding Standard, which Node follows: an
    ill-formed sequence yields U+FFFD and the offending byte is looked at
    again as the start of a new sequence. *)

Record pending := Pending {
  needed : Z;       (* continuation bytes still expected *)
  code_point : Z;   (* bits gathered so far *)
  lower : Z;        (* bounds for the next byte *)
  upper : Z
}.

Definition code_units (c : Z) : jsstring :=
  if c <? 0x10000 then [c]
  else [0xD800 + (c - 0x10000) / 1024; 0xDC00 + (c - 0x10000) mod 1024].

Definition lead (b : Z) : jsstring * option pending :=
  if in_range 0 0x7F b then ([b], None)
  else if in_range 0xC2 0xDF b then
    ([], Some (Pending 1 (b - 0xC0) 0x80 0xBF))
  else if in_range 0xE0 0xEF b then
    ([], Some (Pending 2 (b - 0xE0)
                 (if b =? 0xE0 then 0xA0 else 0x80)
                 (if b =? 0xED then 0x9F else 0xBF)))
  else if in_range 0xF0 0xF4 b then
    ([], Some (Pending 3 (b - 0xF0)
                 (if b =? 0xF0 then 0x90 else 0x80)
                 (if b =? 0xF4 then 0x8F else 0xBF)))
  else ([0xFFFD], None).

Definition continue (p : pending) (b : Z) : jsstring * option pending :=
  if in_range (lower p) (upper p) b then
    let c := code_point p * 64 + (b - 0x80) in
    if needed p =? 1 then (code_units c, None)
    else ([], Some (Pending (needed p - 1) c 0x80 0xBF))
  else
    let '(out, st) := lead b in (0xFFFD :: out, st).

Fixpoint decode_from (st : option pending) (bs : bytes) : jsstring :=
  match bs with
  | [] => match st with None => [] | Some _ => [0xFFFD] end
  | b :: rest =>
      let '(out, st') :=
        match st with None => lead b | Some p => continue p b end in
      out ++ decode_from st' rest
  end.

Definition decode (bs : bytes) : jsstring := decode_from None bs.

(** *** Well-formed UTF-8 (Unicode, table 3-7) *)

Definition continuation (b : Z) : bool := in_range 0x80 0xBF b.

Fixpoint well_formed (bs : bytes) : bool :=
  match bs with
  | [] => true
  | b1 :: r1 =>
      if in_range 0 0x7F b1 then well_formed r1
      else if in_range 0xC2 0xDF b1 then
        match r1 with
        | b2 :: r2 => continuation b2 && well_formed r2
        | _ => false
        end
      else if in_range 0xE0 0xEF b1 then
        match r1 with
        | b2 :: b3 :: r3 =>
            in_range (if b1 =? 0xE0 then 0xA0 else 0x80)
                     (if b1 =? 0xED then 0x9F else 0xBF) b2
            && continuation b3 && well_formed r3
        | _ => false
        end
      else if in_range 0xF0 0xF4 b1 then
        match r1 with
        | b2 :: b3 :: b4 :: r4 =>
            in_range (if b1 =? 0xF0 then 0x90 else 0x80)
                     (if b1 =? 0xF4 then 0x8F else 0xBF) b2
            && continuation b3 && continuation b4 && well_formed r4
        | _ => false
        end
      else false
  end.

End Utf8.

(** ** SHA-256 (FIPS 180-4) and HMAC (RFC 2104)

    [crypto.createHmac('sha256', key)] of Node.  Words are integers
    reduced modulo 2^32. *)

Module Sha256.

Definition w32 (x : Z) : Z := x mod 2 ^ 32.
Definition add32 (x y : Z) : Z := w32 (x + y).
Definition rotr (n x : Z) : Z :=
  Z.lor (Z.shiftr x n) (w32 (Z.shiftl x (32 - n))).
Definition not32 (x : Z) : Z := Z.lxor x 0xFFFFFFFF.

Definition Ch (x y z : Z) : Z := Z.lxor (Z.land x y) (Z.land (not32 x) z).
Definition Maj (x y z : Z) : Z :=
  Z.lxor (Z.lxor (Z.land x y) (Z.land x z)) (Z.land y z).
Definition Sigma0 (x : Z) : Z :=
  Z.lxor (Z.lxor (rotr 2 x) (rotr 13 x)) (rotr 22 x).
Definition Sigma1 (x : Z) : Z :=
  Z.lxor (Z.lxor (rotr 6 x) (rotr 11 x)) (rotr 25 x).
Definition sigma0 (x : Z) : Z :=
  Z.lxor (Z.lxor (rotr 7 x) (rotr 18 x)) (Z.shiftr x 3).
Definition sigma1 (x : Z) : Z :=
  Z.lxor (Z.lxor (rotr 17 x) (rotr 19 x)) (Z.shiftr x 10).

(** The first sixty-four primes. *)
Definition primes : list Z :=
  [2; 3; 5; 7; 11; 13; 17; 19; 23; 29; 31; 37;
   41; 43; 47; 53; 59; 61; 67; 71; 73; 79; 83; 89;
   97; 101; 103; 107; 109; 113; 127; 131; 137; 139; 149; 151;
   157; 163; 167; 173; 179; 181; 191; 193; 197; 199; 211; 223;
   227; 229; 233; 239; 241; 251; 257; 263; 269; 271; 277; 281;
   283; 293; 307; 311].

(** The integer cube root of [x], for a root below [2 ^ n]: the bits of
    the root are decided from the highest down. *)
Fixpoint cube_root (n : nat) (x r : Z) : Z :=
  match n with
  | O => r
  | S n' =>
      let r' := r + 2 ^ Z.of_nat n' in
      if r' * r' * r' <=? x then cube_root n' x r' else cube_root n' x r
  end.

(** Section 4.2.2: the first 32 bits of the fractional parts of the cube
    roots of the first sixty-four primes. *)
Definition K : list Z :=
  Eval vm_compute in
    map (fun p => cube_root 36 (p * 2 ^ 96) 0 mod 2 ^ 32) primes.

Definition state : Type := Z * Z * Z * Z * Z * Z * Z * Z.

(** Section 5.3.3: the first 32 bits of the fractional parts of the
    square roots of the first eight primes. *)
Definition fraction_of_root (p : Z) : Z := Z.sqrt (p * 2 ^ 64) mod 2 ^ 32.

Definition initial : state :=
  Eval vm_compute in
    (fraction_of_root 2, fraction_of_root 3, fraction_of_root 5,
     fraction_of_root 7, fraction_of_root 11, fraction_of_root 13,
     fraction_of_root 17, fraction_of_root 19).

(** Big-endian words of a block, and bytes of a word. *)
Fixpoint words (bs : bytes) : list Z :=
  match bs with
  | b0 :: b1 :: b2 :: b3 :: rest =>
      (b0 * 2 ^ 24 + b1 * 2 ^ 16 + b2 * 2 ^ 8 + b3) :: words rest
  | _ => []
  end.

Definition word_bytes (w : Z) : bytes :=
  [(w / 2 ^ 24) mod 256; (w / 2 ^ 16) mod 256; (w / 2 ^ 8) mod 256;
   w mod 256].

(** Message schedule: [n] further words after the ones in [w]. *)
Fixpoint schedule (n : nat) (w : list Z) : list Z :=
  match n with
  | O => w
  | S n' =>
      let t := length w in
      let at_ (i : nat) := nth (t - i) w 0 in
      schedule n'
        (w ++ [add32 (add32 (add32 (sigma1 (at_ 2%nat)) (at_ 7%nat))
                            (sigma0 (at_ 15%nat))) (at_ 16%nat)])
  end.

Definition round (s : state) (kw : Z * Z) : state :=
  let '(a, b, c, d, e, f, g, h) := s in
  let '(k, w) := kw in
  let t1 := add32 (add32 (add32 (add32 h (Sigma1 e)) (Ch e f g)) k) w in
  let t2 := add32 (Sigma0 a) (Maj a b c) in
  (add32 t1 t2, a, b, c, add32 d t1, e, f, g).

Definition compress (s : state) (block : bytes) : state :=
  let '(a, b, c, d, e, f, g, h) := s in
  let '(a', b', c', d', e', f', g', h') :=
    fold_left round (combine K (schedule 48 (words block))) s in
  (add32 a a', add32 b b', add32 c c', add32 d d',
   add32 e e', add32 f f', add32 g g', add32 h h').

Definition pad (msg : bytes) : bytes :=
  let len := Z.of_nat (length msg) in
  msg ++ 0x80 :: repeat 0 (Z.to_nat ((55 - len) mod 64))
      ++ word_bytes ((8 * len) / 2 ^ 32) ++ word_bytes (8 * len).

Fixpoint blocks (n : nat) (bs : bytes) : list bytes :=
  match n with
  | O => []
  | S n' => firstn 64 bs :: blocks n' (skipn 64 bs)
  end.

Definition digest (msg : bytes) : bytes :=
  let padded := pad msg in
  let '(a, b, c, d, e, f, g, h) :=
    fold_left compress (blocks (length padded / 64) padded) initial in
  word_bytes a ++ word_bytes b ++ word_bytes c ++ word_bytes d ++
  word_bytes e ++ word_bytes f ++ word_bytes g ++ word_bytes h.

End Sha256.

Module Hmac.

Definition block_key (key : bytes) : bytes :=
  let k := if (64 <? length key)%nat then Sha256.digest key else key in
  k ++ repeat 0 (64 - length k).

Definition sha256 (key msg : bytes) : bytes :=
  let k := block_key key in
  Sha256.digest (map (Z.lxor 0x5C) k
                 ++ Sha256.digest (map (Z.lxor 0x36) k ++ msg)).

End Hmac.

(** [digest('hex')]: two lowercase hexadecimal digits per byte. *)
Definition hex_digit (d : Z) : Z := if d <? 10 then 48 + d else 87 + d.

Definition hex (bs : bytes) : jsstring :=
  flat_map (fun b => [hex_digit (b / 16); hex_digit (b mod 16)]) bs.

(** ** JavaScript values and [JSON.parse] *)

(** The values [JSON.parse] can produce, and [undefined], which reading
    an absent property yields.  A number keeps its lexeme; its conversion
    to a string is left to the engine (see [Handler]).  An object keeps
    its members in source order, duplicates included. *)
#[warnings="-register-all"]
Inductive jsvalue : Type :=
| JUndefined
| JNull
| JBool (b : bool)
| JNumber (lexeme : jsstring)
| JString (s : jsstring)
| JArray (elements : list jsvalue)
| JObject (members : list (jsstring * jsvalue)).

Module Json.

Inductive result (A : Type) : Type :=
| Ok (a : A) (rest : jsstring)
| Bad (rest : jsstring)
| OutOfFuel.
Arguments Ok {A} a rest.
Arguments Bad {A} rest.
Arguments OutOfFuel {A}.

Definition is_ws (c : Z) : bool :=
  (c =? 32) || (c =? 9) || (c =? 10) || (c =? 13).

Fixpoint skip_ws (s : jsstring) : jsstring :=
  match s with
  | c :: r => if is_ws c then skip_ws r else s
  | [] => []
  end.

Definition is_digit (c : Z) : bool := in_range 48 57 c.

Fixpoint digits (s : jsstring) : jsstring * jsstring :=
  match s with
  | c :: r =>
      if is_digit c then let '(ds, r') := digits r in (c :: ds, r')
      else ([], s)
  | [] => ([], [])
  end.

Fixpoint strip_prefix (p s : jsstring) : option jsstring :=
  match p, s with
  | [], _ => Some s
  | a :: p', b :: s' => if a =? b then strip_prefix p' s' else None
  | _ :: _, [] => None
  end.

Definition hex_value (c : Z) : option Z :=
  if in_range 48 57 c then Some (c - 48)
  else if in_range 97 102 c then Some (c - 87)
  else if in_range 65 70 c then Some (c - 55)
  else None.

Definition hex4 (a b c d : Z) : option Z :=
  match hex_value a, hex_value b, hex_value c, hex_value d with
  | Some x, Some y, Some z, Some w => Some (((x * 16 + y) * 16 + z) * 16 + w)
  | _, _, _, _ => None
  end.

Definition escape (c : Z) : option Z :=
  if c =? 34 then Some 34            (* quotation mark *)
  else if c =? 92 then Some 92       (* reverse solidus *)
  else if c =? 47 then Some 47       (* solidus *)
  else if c =? 98 then Some 8        (* b: backspace *)
  else if c =? 102 then Some 12      (* f: form feed *)
  else if c =? 110 then Some 10      (* n: line feed *)
  else if c =? 114 then Some 13      (* r: carriage return *)
  else if c =? 116 then Some 9       (* t: tab *)
  else None.

(** The characters of a string after its opening quote; [acc] holds the
    code units read so far, last first. *)
Fixpoint string_body (s acc : jsstring) : result jsstring :=
  match s with
  | [] => Bad []
  | c :: r =>
      if c =? 34 then Ok (rev acc) r
      else if c =? 92 then
        match r with
        | [] => Bad []
        | e :: r' =>
            if e =? 117 then
              match r' with
              | h1 :: h2 :: h3 :: h4 :: r'' =>
                  match hex4 h1 h2 h3 h4 with
                  | Some u => string_body r'' (u :: acc)
                  | None => Bad r'
                  end
              | _ => Bad r'
              end
            else
              match escape e with
              | Some u => string_body r' (u :: acc)
              | None => Bad r
              end
        end
      else if c <? 32 then Bad s
      else string_body r (c :: acc)
  end.

(** A number: an optional minus sign; zero, or a nonzero digit and
    further digits; an optional fraction (a point and at least one
    digit); an optional exponent (e or E, an optional sign and at least
    one digit).  The result is the lexeme. *)
Definition number (s : jsstring) : result jsstring :=
  let '(sign, s1) :=
    match s with
    | c :: r => if c =? 45 then ([45], r) else ([], s)
    | [] => ([], s)
    end in
  match s1 with
  | [] => Bad []
  | c :: r =>
      if negb (is_digit c) then Bad s1
      else
        let '(int, s2) := if c =? 48 then ([c], r)
                          else let '(ds, r') := digits r in (c :: ds, r') in
        let frac :=
          match s2 with
          | d :: r2 =>
              if d =? 46 then
                match digits r2 with
                | ([], _) => Bad r2
                | (ds, r3) => Ok (d :: ds) r3
                end
              else Ok [] s2
          | [] => Ok [] s2
          end in
        match frac with
        | Ok fr s3 =>
            let exp :=
              match s3 with
              | e :: r3 =>
                  if (e =? 101) || (e =? 69) then
                    let '(esign, r4) :=
                      match r3 with
                      | g :: r3' =>
                          if (g =? 43) || (g =? 45) then ([g], r3')
                          else ([], r3)
                      | [] => ([], r3)
                      end in
                    match digits r4 with
                    | ([], _) => Bad r4
                    | (ds, r5) => Ok (e :: esign ++ ds) r5
                    end
                  else Ok [] s3
              | [] => Ok [] s3
              end in
            match exp with
            | Ok ex s4 => Ok (sign ++ int ++ fr ++ ex) s4
            | Bad r' => Bad r'
            | OutOfFuel => OutOfFuel
            end
        | Bad r' => Bad r'
        | OutOfFuel => OutOfFuel
        end
  end.

Definition keyword (s : jsstring) : result jsvalue :=
  match strip_prefix (lit "true") s with
  | Some r => Ok (JBool true) r
  | None =>
  match strip_prefix (lit "false") s with
  | Some r => Ok (JBool false) r
  | None =>
  match strip_prefix (lit "null") s with
  | Some r => Ok JNull r
  | None => Bad s
  end end end.

Fixpoint value (fuel : nat) (s : jsstring) : result jsvalue :=
  match fuel with
  | O => OutOfFuel
  | S fuel' =>
      match skip_ws s with
      | [] => Bad []
      | c :: r =>
          if c =? 123 then
            match skip_ws r with
            | [] => Bad []
            | c' :: r' =>
                if c' =? 125 then Ok (JObject []) r'
                else members fuel' (c' :: r') []
            end
          else if c =? 91 then
            match skip_ws r with
            | [] => Bad []
            | c' :: r' =>
                if c' =? 93 then Ok (JArray []) r'
                else elements fuel' (c' :: r') []
            end
          else if c =? 34 then
            match string_body r [] with
            | Ok str r' => Ok (JString str) r'
            | Bad r' => Bad r'
            | OutOfFuel => OutOfFuel
            end
          else if (c =? 45) || is_digit c then
            match number (c :: r) with
            | Ok lexeme r' => Ok (JNumber lexeme) r'
            | Bad r' => Bad r'
            | OutOfFuel => OutOfFuel
            end
          else keyword (c :: r)
      end
  end

with elements (fuel : nat) (s : jsstring) (acc : list jsvalue)
  : result jsvalue :=
  match fuel with
  | O => OutOfFuel
  | S fuel' =>
      match value fuel' s with
      | Ok v r =>
          match skip_ws r with
          | [] => Bad []
          | c :: r' =>
              if c =? 44 then elements fuel' r' (v :: acc)
              else if c =? 93 then Ok (JArray (rev (v :: acc))) r'
              else Bad (c :: r')
          end
      | Bad r => Bad r
      | OutOfFuel => OutOfFuel
      end
  end

with members (fuel : nat) (s : jsstring) (acc : list (jsstring * jsvalue))
  : result jsvalue :=
  match fuel with
  | O => OutOfFuel
  | S fuel' =>
      match skip_ws s with
      | [] => Bad []
      | q :: r =>
          if negb (q =? 34) then Bad (q :: r)
          else
            match string_body r [] with
            | Ok key r1 =>
                match skip_ws r1 with
                | [] => Bad []
                | colon :: r2 =>
                    if negb (colon =? 58) then Bad (colon :: r2)
                    else
                      match value fuel' r2 with
                      | Ok v r3 =>
                          match skip_ws r3 with
                          | [] => Bad []
                          | c :: r4 =>
                              if c =? 44
                              then members fuel' r4 ((key, v) :: acc)
                              else if c =? 125
                              then Ok (JObject (rev ((key, v) :: acc))) r4
                              else Bad (c :: r4)
                          end
                      | Bad r' => Bad r'
                      | OutOfFuel => OutOfFuel
                      end
                end
            | Bad r' => Bad r'
            | OutOfFuel => OutOfFuel
            end
      end
  end.

(** Enough fuel for any text: every call either consumes a character or
    is made by a caller that did (lemma [JsonFacts.parse_fuel]). *)
Definition fuel_for (text : jsstring) : nat := 2 * length text + 2.

(** [JSON.parse(text)]: the value, or the offset at which the text stops
    being JSON. *)
Definition parse (text : jsstring) : nat + jsvalue :=
  let offset (rest : jsstring) := (length text - length rest)%nat in
  match value (fuel_for text) text with
  | Ok v r =>
      match skip_ws r with
      | [] => inr v
      | r' => inl (offset r')
      end
  | Bad r => inl (offset r)
  | OutOfFuel => inl (length text)
  end.

(** The value of own property [key]: with duplicate keys the last member
    wins, as in [JSON.parse]. *)
Fixpoint own_property (ms : list (jsstring * jsvalue)) (key : jsstring)
  : option jsvalue :=
  match ms with
  | [] => None
  | (k, v) :: rest =>
      match own_property rest key with
      | Some v' => Some v'
      | None => if jsstring_eqb k key then Some v else None
      end
  end.

End Json.

(** ** The handler *)

Module Handler.

(** *** Requests, responses, thrown values *)

(** The two body shapes the handler sends: [{ message }] and
    [{ received }]. *)
Inductive response_body : Type :=
| Message (message : jsstring)
| Received (received : bool).

Record response := Response {
  status : Z;
  body : response_body
}.

(** A thrown value, as far as the [catch] clause tells them apart. *)
Inductive thrown : Type :=
| ThrowString (s : jsstring)        (* typeof e === 'string' *)
| ThrowError (message : jsstring)   (* e instanceof Error *)
| ThrowOther (v : jsvalue).         (* anything else *)

(** The errors the runtime raises in the calls the handler makes.  All
    of them are instances of [Error]. *)
Inductive fault : Type :=
| InvalidArgType
    (* Buffer.from(undefined, 'utf8'): TypeError *)
| TimingSafeEqualLength
    (* crypto.timingSafeEqual on buffers of different length: RangeError *)
| JsonSyntax (text : jsstring) (position : nat)
    (* JSON.parse: SyntaxError *)
| NullishProperty (v : jsvalue) (key : jsstring)
    (* destructuring [key] out of undefined or null: TypeError *)
| NotPrimitive.
    (* an object without a callable toString in a template: TypeError *)

Inductive outcome : Type :=
| Responded (r : response)
| Uncaught (e : thrown).

(** What the promise [buffer(req)] resolves with: a Buffer holding the
    bytes of the body or, when the Content-Type header names a charset,
    the body decoded with that charset to a string. *)
Inductive chunk : Type :=
| Buffer (b : bytes)
| Str (s : jsstring).

(** What [await buffer(req)] gives: the promise is rejected and the
    value is thrown (micro rejects with an [Error] when the Content-Type
    header cannot be parsed, when the body is longer than 1mb, when it
    has not the length announced by Content-Length and when the charset
    is not known), or it resolves. *)
Inductive awaited : Type :=
| Rejected (e : thrown)
| Resolved (v : chunk).

(** What the handler reads of [req]: [req.method], the header
    [req.headers['x-signature']] ([None] when the request has none) and
    [buffer(req)].  The latter is computed by micro from the bytes
    [raw_body] of the body and from the headers Content-Type and
    Content-Length; a request carries the outcome in [buffer]. *)
Record request := Request {
  method : jsstring;
  x_signature : option jsstring;
  raw_body : bytes;
  buffer : awaited
}.

(** *** Calls to the runtime, in the order they are made *)

Inductive branch : Type :=
| OrderCreated      (* eventName === 'order_created' *)
| OrderRefunded     (* eventName === 'order_refunded' *)
| EmptyName         (* eventName === '' *)
| UnknownName.      (* else *)

Inductive event : Type :=
| HmacUpdate (key data : bytes)
    (* the key given to createHmac and the bytes given to update *)
| TimingSafeEqual (a b : bytes) (result : option bool)
    (* [None]: the call threw *)
| JsonParse (text : jsstring)
| Dispatch (b : branch).

(** A computation logs events and ends in a value or a thrown value. *)
Definition M (A : Type) : Type := list event * (thrown + A).

Definition ret {A} (a : A) : M A := ([], inr a).
Definition throw {A} (e : thrown) : M A := ([], inl e).
Definition emit (e : event) : M unit := ([e], inr tt).

Definition bind {A B} (m : M A) (k : A -> M B) : M B :=
  match m with
  | (log, inl e) => (log, inl e)
  | (log, inr a) => let '(log', r) := k a in (log ++ log', r)
  end.

Notation "x <- m ;; k" := (bind m (fun x => k))
  (at level 61, m at next level, right associativity).
Notation "m ;;; k" := (bind m (fun _ => k))
  (at level 61, right associativity).

(** [process.env.LEMON_SQUEEZY_WEBHOOK_SECRET || ''] *)
Definition signingSecret (env : option jsstring) : jsstring :=
  match env with
  | Some (c :: s) => c :: s
  | _ => []
  end.

(** [crypto.timingSafeEqual] compares without leaving early: the
    differences of all bytes are or-ed together. *)
Fixpoint difference (a b : bytes) (acc : Z) : Z :=
  match a, b with
  | x :: a', y :: b' => difference a' b' (Z.lor acc (Z.lxor x y))
  | _, _ => acc
  end.

Definition constant_time_equal (a b : bytes) : bool :=
  difference a b 0 =? 0.

(** The value of property [key] of a value that is neither undefined
    nor null.  Only own properties of objects are looked at, which is
    right for the keys the handler reads: none of them is a property of
    a prototype, of an array or of a string. *)
Definition Get (v : jsvalue) (key : jsstring) : jsvalue :=
  match v with
  | JObject ms =>
      match Json.own_property ms key with
      | Some x => x
      | None => JUndefined
      end
  | _ => JUndefined
  end.

(** [v === 'literal'] *)
Definition strict_equal (v : jsvalue) (s : jsstring) : bool :=
  match v with
  | JString t => jsstring_eqb t s
  | _ => false
  end.

(** [await p]: the value of a promise that resolves; what a rejected
    promise is rejected with is thrown. *)
Definition await (p : awaited) : M chunk :=
  match p with
  | Rejected e => throw e
  | Resolved v => ret v
  end.

(** [v.toString('utf-8')]: a Buffer is decoded, a string is itself. *)
Definition toString (v : chunk) : jsstring :=
  match v with
  | Buffer b => Utf8.decode b
  | Str s => s
  end.

Section Engine.

(** The message of each runtime error and the conversion of a number
    (given by its lexeme) to a string are the engine's. *)
Variable message_of : fault -> jsstring.
Variable number_to_string : jsstring -> jsstring.

Definition raise {A} (f : fault) : M A := throw (ThrowError (message_of f)).

(** [Buffer.from(value as string, 'utf8')] *)
Definition Buffer_from (value : option jsstring) : M bytes :=
  match value with
  | Some s => ret (Utf8.encode s)
  | None => raise InvalidArgType
  end.

(** [crypto.createHmac('sha256', key).update(data).digest('hex')]: key
    and data are strings and are hashed as their UTF-8 encoding. *)
Definition hmac_hex (key data : jsstring) : M jsstring :=
  emit (HmacUpdate (Utf8.encode key) (Utf8.encode data)) ;;;
  ret (hex (Hmac.sha256 (Utf8.encode key) (Utf8.encode data))).

Definition timingSafeEqual (a b : bytes) : M bool :=
  if (length a =? length b)%nat then
    emit (TimingSafeEqual a b (Some (constant_time_equal a b))) ;;;
    ret (constant_time_equal a b)
  else
    emit (TimingSafeEqual a b None) ;;;
    raise TimingSafeEqualLength.

Definition JSON_parse (text : jsstring) : M jsvalue :=
  emit (JsonParse text) ;;;
  match Json.parse text with
  | inr v => ret v
  | inl position => raise (JsonSyntax text position)
  end.

(** Reading property [key] in a destructuring pattern. *)
Definition property (v : jsvalue) (key : jsstring) : M jsvalue :=
  match v with
  | JUndefined | JNull => raise (NullishProperty v key)
  | _ => ret (Get v key)
  end.

(** The conversion a template literal applies to a substitution. *)
Fixpoint ToString (v : jsvalue) : M jsstring :=
  match v with
  | JUndefined => ret (lit "undefined")
  | JNull => ret (lit "null")
  | JBool true => ret (lit "true")
  | JBool false => ret (lit "false")
  | JNumber lexeme => ret (number_to_string lexeme)
  | JString s => ret s
  | JArray elements =>
      (fix join (l : list jsvalue) : M jsstring :=
         match l with
         | [] => ret []
         | x :: rest =>
             first <- match x with
                      | JUndefined | JNull => ret []
                      | _ => ToString x
                      end ;;
             match rest with
             | [] => ret first
             | _ => others <- join rest ;; ret (first ++ lit "," ++ others)
             end
         end) elements
  | JObject ms =>
      match Json.own_property ms (lit "toString") with
      | Some _ => raise NotPrimitive
      | None => ret (lit "[object Object]")
      end
  end.

Definition json (status : Z) (message : jsstring) : response :=
  Response status (Message message).

(** Lines 58-92: parsing, destructuring and the branches on
    [eventName].  [Some r]: the handler returned with response [r];
    [None]: control reached the end of the [try] statement. *)
Definition after_verification (rawBody : jsstring) : M (option response) :=
  payload <- JSON_parse rawBody ;;
  meta <- property payload (lit "meta") ;;
  eventName <- property meta (lit "event_name") ;;
  custom_data <- property meta (lit "custom_data") ;;
  userId <- property custom_data (lit "userId") ;;
  data <- property payload (lit "data") ;;
  orderId <- property data (lit "id") ;;
  attributes <- property data (lit "attributes") ;;
  identifier <- property attributes (lit "identifier") ;;
  if strict_equal eventName (lit "order_created") then
    emit (Dispatch OrderCreated) ;;; ret None
  else if strict_equal eventName (lit "order_refunded") then
    emit (Dispatch OrderRefunded) ;;; ret None
  else if strict_equal eventName (lit "") then
    emit (Dispatch EmptyName) ;;; ret None
  else
    emit (Dispatch UnknownName) ;;;
    name <- ToString eventName ;;
    ident <- ToString identifier ;;
    order <- ToString orderId ;;
    ret (Some (json 400 (lit "Unknown event name: " ++ name
                         ++ lit " for order: " ++ ident
                         ++ lit " (" ++ order ++ lit ")"))).

(** The body of the [try] statement: lines 47-56, then the rest. *)
Definition try_block (secret : jsstring) (req : request)
  : M (option response) :=
  body <- await (buffer req) ;;
  let rawBody := toString body in
  hexdigest <- hmac_hex secret rawBody ;;
  digest <- Buffer_from (Some hexdigest) ;;
  signature <- Buffer_from (x_signature req) ;;
  equal <- timingSafeEqual digest signature ;;
  if negb equal then
    ret (Some (json 400 (lit "Invalid signature.")))
  else
    after_verification rawBody.

(** The [catch] clause. *)
Definition catch_clause (e : thrown) : outcome :=
  match e with
  | ThrowString s => Responded (json 400 (lit "Webhook error: " ++ s))
  | ThrowError message =>
      Responded (json 400 (lit "Webhook error: " ++ message))
  | ThrowOther _ => Uncaught e
  end.

Definition handler (env : option jsstring) (req : request)
  : list event * outcome :=
  if negb (jsstring_eqb (method req) (lit "POST")) then
    ([], Responded (json 405 (lit "Method not allowed")))
  else
    match try_block (signingSecret env) req with
    | (log, inl e) => (log, catch_clause e)
    | (log, inr (Some r)) => (log, Responded r)
    | (log, inr None) => (log, Responded (Response 200 (Received true)))
    end.

End Engine.

End Handler.

(** ** An engine for the examples

    Message texts in the wording of Node 18 (every [SyntaxError] in the
    form it has for an unexpected character).  The theorems below hold
    for all message texts and all number conversions; these are used
    where a closed example needs some. *)

Module Node.

Import Handler.

Definition decimal (n : nat) : jsstring :=
  lit (NilZero.string_of_uint (Nat.to_uint n)).

Definition message (f : fault) : jsstring :=
  match f with
  | InvalidArgType =>
      lit "The first argument must be of type string or an instance of Buffer, ArrayBuffer, or Array or an Array-like Object. Received undefined"
  | TimingSafeEqualLength =>
      lit "Input buffers must have the same byte length"
  | JsonSyntax text position =>
      match nth_error text position with
      | Some c => lit "Unexpected token " ++ [c]
                  ++ lit " in JSON at position " ++ decimal position
      | None => lit "Unexpected end of JSON input"
      end
  | NullishProperty v key =>
      lit "Cannot read properties of "
      ++ match v with JNull => lit "null" | _ => lit "undefined" end
      ++ lit " (reading '" ++ key ++ lit "')"
  | NotPrimitive => lit "Cannot convert object to primitive value"
  end.

(** Exact for integer lexemes of at most fifteen digits, which print as
    they are written (minus zero prints as zero). *)
Definition number_to_string (lexeme : jsstring) : jsstring :=
  if jsstring_eqb lexeme (lit "-0") then lit "0" else lexeme.

End Node.

(** ** Vocabulary of the specification *)

Import Handler.

(** The signature the provider sends: the hexadecimal HMAC-SHA256 of the
    bytes of the body under the secret. *)
Definition expected_signature (secret : jsstring) (B : bytes) : jsstring :=
  hex (Hmac.sha256 (Utf8.encode secret) B).

(** The digest the handler compares with: the same over the body decoded
    to a string and encoded again. *)
Definition handler_digest (secret : jsstring) (B : bytes) : jsstring :=
  hex (Hmac.sha256 (Utf8.encode secret) (Utf8.encode (Utf8.decode B))).

(** The digest the handler computes for the string [rawBody]. *)
Definition digest_of (secret rawBody : jsstring) : jsstring :=
  hex (Hmac.sha256 (Utf8.encode secret) (Utf8.encode rawBody)).

(** The body is handed over as it was sent: [buffer(req)] resolves with
    a Buffer that holds the bytes of the body. *)
Definition delivered (req : request) : Prop :=
  buffer req = Resolved (Buffer (raw_body req)).

(** The header is the signature the provider sends for the body. *)
Definition provider_signed (env : option jsstring) (req : request) : Prop :=
  x_signature req
  = Some (expected_signature (signingSecret env) (raw_body req)).

(** A request whose signature passes the verification: the body is
    handed over as it was sent and the header is the digest the handler
    computes for it.  For a body that is well-formed UTF-8 this is the
    signature the provider sends (lemma [provider_signature_valid]). *)
Definition valid_signature (env : option jsstring) (req : request) : Prop :=
  delivered req
  /\ x_signature req
     = Some (handler_digest (signingSecret env) (raw_body req)).

(** The same for whatever [buffer(req)] resolves with: the header is the
    digest of the string the handler makes of it (lemma
    [accepted_iff]). *)
Definition accepted (env : option jsstring) (req : request) : Prop :=
  exists v, buffer req = Resolved v
            /\ x_signature req
               = Some (digest_of (signingSecret env) (toString v)).

(** [toUpperCase] on ASCII. *)
Definition uppercase (s : jsstring) : jsstring :=
  map (fun c => if in_range 97 122 c then c - 32 else c) s.

(** The POST request with header [X] and body [B], handed over as it
    was sent. *)
Definition post (X : option jsstring) (B : bytes) : request :=
  Request (lit "POST") X B (Resolved (Buffer B)).

(** A parsed body of the shape
    [{ meta: { event_name, custom_data: { userId } },
       data: { id, attributes: { identifier } } }] with string fields. *)
Definition webhook_event (payload : jsvalue)
    (eventName userId orderId identifier : jsstring) : Prop :=
  let meta := Get payload (lit "meta") in
  let data := Get payload (lit "data") in
  Get meta (lit "event_name") = JString eventName /\
  Get (Get meta (lit "custom_data")) (lit "userId") = JString userId /\
  Get data (lit "id") = JString orderId /\
  Get (Get data (lit "attributes")) (lit "identifier") = JString identifier.

(** The event names the handler has a branch for. *)
Definition recognized (eventName : jsstring) : bool :=
  jsstring_eqb eventName (lit "order_created")
  || jsstring_eqb eventName (lit "order_refunded")
  || jsstring_eqb eventName (lit "").

(** The kinds listed in the comment of the third branch. *)
Definition unhandled_kinds : list jsstring :=
  [lit "subscription_created"; lit "subscription_cancelled";
   lit "subscription_resumed"; lit "subscription_expired";
   lit "subscription_paused"; lit "subscription_unpaused";
   lit "subscription_payment_failed"; lit "subscription_payment_success";
   lit "subscription_payment_recovered"; lit "license_key_created"].

(** The event names the specification counts as recognized: the two
    the handler has a branch for and the kinds of that comment. *)
Definition named_in_specification : list jsstring :=
  lit "order_created" :: lit "order_refunded" :: unhandled_kinds.

(** The branch taken for an event name, and the message of the last
    one. *)
Definition branch_of (eventName : jsstring) : branch :=
  if jsstring_eqb eventName (lit "order_created") then OrderCreated
  else if jsstring_eqb eventName (lit "order_refunded") then OrderRefunded
  else if jsstring_eqb eventName (lit "") then EmptyName
  else UnknownName.

Definition unknown_event (eventName identifier orderId : jsstring)
  : response :=
  json 400 (lit "Unknown event name: " ++ eventName
            ++ lit " for order: " ++ identifier
            ++ lit " (" ++ orderId ++ lit ")").

Definition received : response := Response 200 (Received true).

Definition invalid_signature : response :=
  json 400 (lit "Invalid signature.").

(** The first call of the [try] statement once [buffer(req)] has
    resolved, for a Buffer [B] and for any value [v]. *)
Definition hmac_call (secret : jsstring) (B : bytes) : event :=
  HmacUpdate (Utf8.encode secret) (Utf8.encode (Utf8.decode B)).

Definition hmac_call_on (secret : jsstring) (v : chunk) : event :=
  HmacUpdate (Utf8.encode secret) (Utf8.encode (toString v)).

(** What the handler makes of the end of the [try] statement. *)
Definition settle (catch : thrown -> outcome)
    (r : thrown + option response) : outcome :=
  match r with
  | inl e => catch e
  | inr (Some r) => Responded r
  | inr None => Responded received
  end.

(** Properties of a log. *)
Definition hmac_inputs (log : list event) : list bytes :=
  flat_map (fun e => match e with HmacUpdate _ data => [data] | _ => [] end)
           log.

Definition is_parse (e : event) : bool :=
  match e with JsonParse _ => true | _ => false end.

Definition is_dispatch (e : event) : bool :=
  match e with Dispatch _ => true | _ => false end.

Definition is_accept (e : event) : bool :=
  match e with TimingSafeEqual _ _ (Some true) => true | _ => false end.

(** No parsing and no dispatch happened. *)
Definition stopped_at_verification (log : list event) : Prop :=
  forallb (fun e => negb (is_parse e || is_dispatch e)) log = true.

(** Every [JSON.parse] comes after a comparison that returned true. *)
Definition parsed_only_after_accept (log : list event) : Prop :=
  forall before text after_,
    log = before ++ JsonParse text :: after_ ->
    existsb is_accept before = true.

(** The examples of the specification. *)
Definition example_secret : option jsstring := Some (lit "abc123").

Definition example_body (eventName : string) : bytes :=
  Utf8.encode
    (dq "{'meta':{'event_name':'" ++ lit eventName
     ++ dq "','custom_data':{'userId':'u1'}},'data':{'id':'o1','attributes':{'identifier':'ORD-1'}}}").

(** The POST request with body [B] and the provider's signature. *)
Definition signed (env : option jsstring) (B : bytes) : request :=
  post (Some (expected_signature (signingSecret env) B)) B.

(** The scenario of the specification: secret "abc123", the body with
    event name "order_created", signed. *)
Definition order_created_request : request :=
  signed example_secret (example_body "order_created").

(** The same body with a signature of 64 zeros. *)
Definition wrong_signature : jsstring := repeat 48 64.

Definition tampered_request : request :=
  post (Some wrong_signature) (example_body "order_created").

(** Signed bodies with other event names, and one that is not JSON. *)
Definition subscription_request : request :=
  signed example_secret (example_body "subscription_created").

Definition order_deleted_request : request :=
  signed example_secret (example_body "order_deleted").

Definition truncated_request : request :=
  signed example_secret (lit "{").

(** A body that is not UTF-8: the single byte FF. *)
Definition ill_formed_body : bytes := [0xFF].

(** The value the example body parses to. *)
Definition example_payload (eventName : string) (custom_data : bool)
  : jsvalue :=
  let name := (lit "event_name", JString (lit eventName)) in
  let custom := (lit "custom_data",
                 JObject [(lit "userId", JString (lit "u1"))]) in
  JObject
    [(lit "meta", JObject (if custom_data then [name; custom] else [name]));
     (lit "data",
      JObject [(lit "id", JString (lit "o1"));
               (lit "attributes",
                JObject [(lit "identifier", JString (lit "ORD-1"))])])].

(** The example body without [meta.custom_data]. *)
Definition body_without_custom_data : bytes :=
  Utf8.encode
    (dq "{'meta':{'event_name':'order_created'},'data':{'id':'o1','attributes':{'identifier':'ORD-1'}}}").

Definition without_custom_data_request : request :=
  signed example_secret body_without_custom_data.

(** The handler with the engine of the examples. *)
Abbreviation node_handler :=
  (Handler.handler Node.message Node.number_to_string).

(** Neither undefined nor null. *)
Definition present (v : jsvalue) : bool :=
  match v with
  | JUndefined | JNull => false
  | _ => true
  end.

(** The values the destructuring pattern reads a property of: the
    payload, [meta], [meta.custom_data], [data] and [data.attributes]. *)
Definition destructurable (payload : jsvalue) : bool :=
  let meta := Get payload (lit "meta") in
  let data := Get payload (lit "data") in
  present payload && present meta
  && present (Get meta (lit "custom_data"))
  && present data && present (Get data (lit "attributes")).

(** The value bound to [eventName]. *)
Definition event_name_of (payload : jsvalue) : jsvalue :=
  Get (Get payload (lit "meta")) (lit "event_name").

(** Requests for the further examples: the example request sent with
    GET, a header of three characters, and signed bodies that have the
    nested objects but none of [userId], [id] and [identifier]. *)
Definition get_request : request :=
  Request (lit "GET") (x_signature order_created_request)
          (raw_body order_created_request)
          (buffer order_created_request).

Definition short_signature_request : request :=
  post (Some (lit "abc")) (example_body "order_created").

Definition bare_body (eventName : jsstring) : bytes :=
  Utf8.encode
    (dq "{'meta':{'event_name':" ++ eventName
     ++ dq ",'custom_data':{}},'data':{'attributes':{}}}").

Definition bare_payload (eventName : jsvalue) : jsvalue :=
  JObject
    [(lit "meta", JObject [(lit "event_name", eventName);
                           (lit "custom_data", JObject [])]);
     (lit "data", JObject [(lit "attributes", JObject [])])].

Definition bare_request (eventName : jsstring) : request :=
  signed example_secret (bare_body eventName).

Definition refunded_bare_request : request :=
  bare_request (dq "'order_refunded'").

Definition ping_bare_request : request :=
  bare_request (dq "'ping'").

Definition numeric_bare_request : request :=
  bare_request (lit "5").

(** The body FF and the body EF BF BD under one header. *)
Definition replacement_signature : option jsstring :=
  Some (expected_signature (signingSecret example_secret) Utf8.replacement).

Definition ill_formed_request : request :=
  post replacement_signature ill_formed_body.

Definition replacement_request : request :=
  post replacement_signature Utf8.replacement.

(** The example body with the bytes [userId] for the user, and what it
    parses to when these are the byte FF. *)
Definition example_body_with (eventName : string) (userId : bytes) : bytes :=
  Utf8.encode
    (dq "{'meta':{'event_name':'" ++ lit eventName
     ++ dq "','custom_data':{'userId':'")
  ++ userId
  ++ Utf8.encode
       (dq "'}},'data':{'id':'o1','attributes':{'identifier':'ORD-1'}}}").

Definition ill_formed_payload (eventName : string) : jsvalue :=
  JObject
    [(lit "meta",
      JObject [(lit "event_name", JString (lit eventName));
               (lit "custom_data",
                JObject [(lit "userId", JString [0xFFFD])])]);
     (lit "data",
      JObject [(lit "id", JString (lit "o1"));
               (lit "attributes",
                JObject [(lit "identifier", JString (lit "ORD-1"))])])].

(** Bodies that hold the byte FF, with the provider's signature: events
    named "order_created" and "order_deleted", a text that is not JSON,
    and an event without [meta.custom_data]. *)
Definition ill_formed_created_request : request :=
  signed example_secret (example_body_with "order_created" ill_formed_body).

Definition ill_formed_deleted_request : request :=
  signed example_secret (example_body_with "order_deleted" ill_formed_body).

Definition ill_formed_truncated_request : request :=
  signed example_secret (lit "{" ++ ill_formed_body).

Definition ill_formed_body_without_custom_data : bytes :=
  Utf8.encode (dq "{'meta':{'event_name':'order_created'},'data':{'id':'")
  ++ ill_formed_body
  ++ Utf8.encode (dq "','attributes':{'identifier':'ORD-1'}}}").

Definition ill_formed_payload_without_custom_data : jsvalue :=
  JObject
    [(lit "meta", JObject [(lit "event_name", JString (lit "order_created"))]);
     (lit "data",
      JObject [(lit "id", JString [0xFFFD]);
               (lit "attributes",
                JObject [(lit "identifier", JString (lit "ORD-1"))])])].

Definition ill_formed_without_custom_data_request : request :=
  signed example_secret ill_formed_body_without_custom_data.

(** The example request when [buffer(req)] is rejected: with a
    Content-Type header that micro cannot parse, with a string, and with
    a value that is neither a string nor an [Error]. *)
Definition rejected_with (e : thrown) (req : request) : request :=
  Request (method req) (x_signature req) (raw_body req) (Rejected e).

Definition invalid_media_type : thrown :=
  ThrowError (lit "invalid media type").

Definition malformed_content_type_request : request :=
  rejected_with invalid_media_type order_created_request.

Definition rejected_string_request : request :=
  rejected_with (ThrowString (lit "aborted")) order_created_request.

Definition rejected_other_request : request :=
  rejected_with (ThrowOther JNull) order_created_request.

(** The example body under its uppercase signature, with such a
    Content-Type header. *)
Definition uppercase_signature : jsstring :=
  uppercase (expected_signature (signingSecret example_secret)
               (example_body "order_created")).

Definition uppercase_request : request :=
  post (Some uppercase_signature) (example_body "order_created").

Definition uppercase_malformed_request : request :=
  rejected_with invalid_media_type uppercase_request.

(** The example body with the empty event name, and the example body
    signed under the empty key. *)
Definition empty_name_request : request :=
  signed example_secret (example_body "").

Definition empty_key_request : request :=
  post (Some (hex (Hmac.sha256 [] (example_body "order_created"))))
       (example_body "order_created").

(** A body of more than 1mb: micro rejects. *)
Definition oversized_request : request :=
  Request (lit "POST") (Some wrong_signature)
          (repeat 32 (Z.to_nat 1048577))
          (Rejected (ThrowError (lit "Body exceeded 1mb limit"))).

(** A body sent with [charset=iso-8859-1] in its Content-Type header and
    the provider's signature: [buffer(req)] resolves with the string
    that has one code unit for each byte. *)
Definition latin1 (B : bytes) : jsstring := B.

Definition accented_body : bytes :=
  Utf8.encode (dq "{'a':'") ++ [0xC3; 0xA9] ++ Utf8.encode (dq "'}").

Definition latin1_request : request :=
  Request (lit "POST")
          (Some (expected_signature (signingSecret example_secret)
                   accented_body))
          accented_body
          (Resolved (Str (latin1 accented_body))).

(** A parser result that is not out of fuel and that has consumed at
    least one character of [s]. *)
Definition r_ok {A : Type} (s : jsstring) (r : Json.result A) : Prop :=
  r <> Json.OutOfFuel
  /\ forall v rest, r = Json.Ok v rest -> (length rest < length s)%nat.

(** A computation that logs nothing and throws at most [expected]. *)
Definition silent {A : Type} (expected : thrown) (m : M A) : Prop :=
  fst m = [] /\ forall e, snd m = inl e -> e = expected.

(** Digits of a digest. *)
Definition byte_range (b : Z) : Prop := 0 <= b < 256.

Definition lower_hex (c : Z) : Prop := 48 <= c <= 57 \/ 97 <= c <= 102.

(** ** Tactics *)

(** Decide the comparisons in the goal from the hypotheses. *)
Ltac tests :=
  repeat match goal with
    | |- context [?a <=? ?b] => destruct (Z.leb_spec a b); try lia
    | |- context [?a <? ?b] => destruct (Z.ltb_spec a b); try lia
    | |- context [?a =? ?b] => destruct (Z.eqb_spec a b); try lia
    end.

(** Turn boolean range tests in the hypotheses into inequalities. *)
Ltac bounds :=
  unfold Utf8.is_high_surrogate, Utf8.is_low_surrogate, Utf8.continuation,
    in_range in *;
  repeat match goal with
    | H : _ && _ = true |- _ => apply andb_true_iff in H; destruct H
    | H : (_ <=? _) = true |- _ => apply Z.leb_le in H
    | H : (_ =? _) = true |- _ => apply Z.eqb_eq in H
    | H : (_ =? _) = false |- _ => apply Z.eqb_neq in H
    end.

(** Run the decoder on a sequence whose bytes are bounded. *)
Ltac run_decoder :=
  unfold Utf8.decode; cbn [Utf8.decode_from];
  unfold Utf8.continue, Utf8.lead, in_range;
  cbn [Utf8.lower Utf8.upper Utf8.needed Utf8.code_point];
  repeat (tests;
          cbn [andb Utf8.lower Utf8.upper Utf8.needed Utf8.code_point app]);
  unfold Utf8.code_units;
  repeat (tests; cbn [andb app]).

(** Read a field of one of the example requests. *)
Ltac read_request :=
  cbv [delivered provider_signed signed post rejected_with
       order_created_request tampered_request subscription_request
       order_deleted_request truncated_request without_custom_data_request
       get_request short_signature_request bare_request
       refunded_bare_request ping_bare_request numeric_bare_request
       ill_formed_request replacement_request ill_formed_created_request
       ill_formed_deleted_request ill_formed_truncated_request
       ill_formed_without_custom_data_request
       malformed_content_type_request rejected_string_request
       rejected_other_request uppercase_request uppercase_malformed_request
       oversized_request latin1_request empty_name_request empty_key_request
       uppercase_signature replacement_signature invalid_media_type
       method x_signature raw_body buffer];
  reflexivity.

(** * Properties *)

(** ** UTF-8 *)

Module Utf8Facts.

Import Utf8.

(** A string of code units below 128 is its own encoding. *)
Lemma encode_ascii (s : jsstring) :
  Forall (fun c => c < 0x80) s -> encode s = s.
Proof.
  induction 1 as [|c s Hc _ IH]; [reflexivity|].
  cbn [encode]. destruct (Z.ltb_spec c 0x80); [|lia]. now rewrite IH.
Qed.

(** The encoding of a code unit below 128 is that unit; the encoding of
    any other starts with a byte from 128 on. *)
Lemma encode_head (u : Z) (s : jsstring) :
  (u < 0x80 /\ encode (u :: s) = u :: encode s) \/
  (exists x rest, encode (u :: s) = x :: rest /\ 0x80 <= x).
Proof.
  cbn [encode]. unfold replacement, encode2, encode3, encode4.
  cbn [app].
  destruct (Z.ltb_spec u 0x80) as [Hu|Hu]; [left; now split|].
  right. destruct (Z.ltb_spec u 0x800) as [Hv|Hv].
  { eexists; eexists; split; [reflexivity|].
    assert (0 <= u / 64) by (apply Z.div_pos; lia). lia. }
  destruct (is_high_surrogate u) eqn:Hhi.
  { destruct s as [|v s]; [eexists; eexists; split; [reflexivity|lia]|].
    destruct (is_low_surrogate v) eqn:Hlo;
      [|eexists; eexists; split; [reflexivity|lia]].
    eexists; eexists; split; [reflexivity|]. bounds.
    assert (0 <= pair_code_point u v / 262144)
      by (apply Z.div_pos; unfold pair_code_point; lia).
    lia. }
  destruct (is_low_surrogate u);
    (eexists; eexists; split; [reflexivity|]); [lia|].
  assert (0 <= u / 4096) by (apply Z.div_pos; lia). lia.
Qed.

(** Only that string is encoded to it. *)
Lemma encode_ascii_inv (s d : jsstring) :
  Forall (fun c => c < 0x80) d -> encode s = d -> s = d.
Proof.
  intros Hd. revert s. induction Hd as [|c d Hc Hd IH]; intros s E.
  - destruct s as [|u s]; [reflexivity|]. exfalso.
    destruct (encode_head u s) as [[_ E']|(x & rest & E' & _)];
      rewrite E' in E; discriminate.
  - destruct s as [|u s]; [discriminate|].
    destruct (encode_head u s) as [[_ E']|(x & rest & E' & Hx)];
      rewrite E' in E; injection E as -> E.
    + f_equal. now apply IH.
    + lia.
Qed.


(** The decoder on the well-formed sequences of one to four bytes. *)
Lemma decode_1 (b : Z) (r : bytes) :
  in_range 0 0x7F b = true -> decode (b :: r) = b :: decode r.
Proof. intros H. bounds. run_decoder. reflexivity. Qed.

Lemma decode_2 (b1 b2 : Z) (r : bytes) :
  in_range 0xC2 0xDF b1 = true -> continuation b2 = true ->
  decode (b1 :: b2 :: r) = (b1 - 0xC0) * 64 + (b2 - 0x80) :: decode r.
Proof. intros H1 H2. bounds. run_decoder. reflexivity. Qed.

Lemma decode_3 (b1 b2 b3 : Z) (r : bytes) :
  in_range 0xE0 0xEF b1 = true ->
  in_range (if b1 =? 0xE0 then 0xA0 else 0x80)
           (if b1 =? 0xED then 0x9F else 0xBF) b2 = true ->
  continuation b3 = true ->
  decode (b1 :: b2 :: b3 :: r) =
  ((b1 - 0xE0) * 64 + (b2 - 0x80)) * 64 + (b3 - 0x80) :: decode r.
Proof.
  intros H1 H2 H3. bounds. revert H H0.
  destruct (Z.eqb_spec b1 0xE0), (Z.eqb_spec b1 0xED); intros; bounds;
    try lia; run_decoder; reflexivity.
Qed.

Lemma decode_4 (b1 b2 b3 b4 : Z) (r : bytes) :
  in_range 0xF0 0xF4 b1 = true ->
  in_range (if b1 =? 0xF0 then 0x90 else 0x80)
           (if b1 =? 0xF4 then 0x8F else 0xBF) b2 = true ->
  continuation b3 = true -> continuation b4 = true ->
  decode (b1 :: b2 :: b3 :: b4 :: r) =
  let c := (((b1 - 0xF0) * 64 + (b2 - 0x80)) * 64 + (b3 - 0x80)) * 64
           + (b4 - 0x80) in
  0xD800 + (c - 0x10000) / 1024 :: 0xDC00 + (c - 0x10000) mod 1024
  :: decode r.
Proof.
  intros H1 H2 H3 H4. bounds. revert H H0.
  destruct (Z.eqb_spec b1 0xF0), (Z.eqb_spec b1 0xF4); intros; bounds;
    try lia; run_decoder; reflexivity.
Qed.

(** The encoders invert the arithmetic of the decoder. *)
Lemma encode2_bytes (b1 b2 : Z) :
  0xC0 <= b1 -> 0x80 <= b2 <= 0xBF ->
  encode2 ((b1 - 0xC0) * 64 + (b2 - 0x80)) = [b1; b2].
Proof.
  intros. unfold encode2. f_equal; [|f_equal];
    Z.div_mod_to_equations; lia.
Qed.

Lemma encode3_bytes (b1 b2 b3 : Z) :
  0xE0 <= b1 -> 0x80 <= b2 <= 0xBF -> 0x80 <= b3 <= 0xBF ->
  encode3 (((b1 - 0xE0) * 64 + (b2 - 0x80)) * 64 + (b3 - 0x80))
  = [b1; b2; b3].
Proof.
  intros. unfold encode3. f_equal; [|f_equal; [|f_equal]];
    Z.div_mod_to_equations; lia.
Qed.

Lemma encode4_bytes (b1 b2 b3 b4 : Z) :
  0xF0 <= b1 -> 0x80 <= b2 <= 0xBF -> 0x80 <= b3 <= 0xBF ->
  0x80 <= b4 <= 0xBF ->
  encode4 ((((b1 - 0xF0) * 64 + (b2 - 0x80)) * 64 + (b3 - 0x80)) * 64
           + (b4 - 0x80))
  = [b1; b2; b3; b4].
Proof.
  intros. unfold encode4. f_equal; [|f_equal; [|f_equal; [|f_equal]]];
    Z.div_mod_to_equations; lia.
Qed.

(** Decoding well-formed UTF-8 and encoding the string again gives the
    bytes back. *)
Lemma roundtrip_upto (n : nat) :
  forall bs, (length bs <= n)%nat -> well_formed bs = true ->
  encode (decode bs) = bs.
Proof.
  induction n as [|n IH]; intros bs Hn W.
  { destruct bs; [reflexivity|cbn in Hn; lia]. }
  destruct bs as [|b1 r1]; [reflexivity|]. cbn [well_formed] in W.
  cbn [length] in Hn.
  destruct (in_range 0 0x7F b1) eqn:R1.
  { rewrite decode_1 by assumption. cbn [encode]. bounds.
    destruct (Z.ltb_spec b1 0x80); [|lia]. f_equal. apply IH; [lia|easy]. }
  destruct (in_range 0xC2 0xDF b1) eqn:R2.
  { destruct r1 as [|b2 r2]; [discriminate|].
    apply andb_true_iff in W. destruct W as [C2 W].
    rewrite decode_2 by assumption. cbn [encode length] in *.
    rewrite (IH r2) by (lia || easy). clear IH R1. bounds.
    tests; now rewrite encode2_bytes by lia. }
  destruct (in_range 0xE0 0xEF b1) eqn:R3.
  { destruct r1 as [|b2 [|b3 r3]]; try discriminate.
    apply andb_true_iff in W. destruct W as [W W3].
    apply andb_true_iff in W. destruct W as [C2 C3].
    rewrite decode_3 by assumption. cbn [encode length] in *.
    rewrite (IH r3) by (lia || easy). clear IH R1 R2.
    assert (B2 : 0x80 <= b2 <= 0xBF /\ (b1 = 0xE0 -> 0xA0 <= b2)
                 /\ (b1 = 0xED -> b2 <= 0x9F)).
    { revert C2. destruct (Z.eqb_spec b1 0xE0), (Z.eqb_spec b1 0xED);
        intros; bounds; lia. }
    clear C2. bounds.
    unfold is_high_surrogate, is_low_surrogate, in_range.
    tests; cbn [andb]; now rewrite encode3_bytes by lia. }
  destruct (in_range 0xF0 0xF4 b1) eqn:R4; [|discriminate].
  destruct r1 as [|b2 [|b3 [|b4 r4]]]; try discriminate.
  apply andb_true_iff in W. destruct W as [W W4].
  apply andb_true_iff in W. destruct W as [W C4].
  apply andb_true_iff in W. destruct W as [C2 C3].
  rewrite decode_4 by assumption. cbn zeta.
  cbn [encode length] in *. rewrite (IH r4) by (lia || easy).
  clear IH R1 R2 R3.
  assert (B2 : 0x80 <= b2 <= 0xBF /\ (b1 = 0xF0 -> 0x90 <= b2)
               /\ (b1 = 0xF4 -> b2 <= 0x8F)).
  { revert C2. destruct (Z.eqb_spec b1 0xF0), (Z.eqb_spec b1 0xF4);
      intros; bounds; lia. }
  clear C2. bounds.
  pose proof (encode4_bytes b1 b2 b3 b4) as E4.
  set (c := (((b1 - 0xF0) * 64 + (b2 - 0x80)) * 64 + (b3 - 0x80)) * 64
            + (b4 - 0x80)) in *.
  assert (Hc : 0x10000 <= c <= 0x10FFFF) by (subst c; lia).
  assert (Hq : 0 <= (c - 0x10000) / 1024 <= 1023)
    by (Z.div_mod_to_equations; lia).
  assert (Hr : 0 <= (c - 0x10000) mod 1024 <= 1023)
    by (Z.div_mod_to_equations; lia).
  assert (Hp : pair_code_point (0xD800 + (c - 0x10000) / 1024)
                               (0xDC00 + (c - 0x10000) mod 1024) = c)
    by (unfold pair_code_point; Z.div_mod_to_equations; lia).
  unfold is_high_surrogate, is_low_surrogate, in_range.
  tests; cbn [andb]; rewrite Hp, E4 by lia; reflexivity.
Qed.

Lemma roundtrip (bs : bytes) :
  well_formed bs = true -> encode (decode bs) = bs.
Proof. apply (roundtrip_upto (length bs)). lia. Qed.

End Utf8Facts.

(** ** Digests *)

Module DigestFacts.

(** The constants and the digests of the standards' examples. *)
Lemma constants_check :
  firstn 2 Sha256.K = [0x428a2f98; 0x71374491]
  /\ skipn 62 Sha256.K = [0xbef9a3f7; 0xc67178f2]
  /\ Sha256.initial
     = (0x6a09e667, 0xbb67ae85, 0x3c6ef372, 0xa54ff53a,
        0x510e527f, 0x9b05688c, 0x1f83d9ab, 0x5be0cd19).
Proof. repeat split. Qed.

Lemma sha256_abc :
  hex (Sha256.digest (lit "abc"))
  = lit "ba7816bf8f01cfea414140de5dae2223b00361a396177a9cb410ff61f20015ad".
Proof. vm_compute. reflexivity. Qed.

Lemma sha256_two_blocks :
  hex (Sha256.digest
         (lit "abcdbcdecdefdefgefghfghighijhijkijkljklmklmnlmnomnopnopq"))
  = lit "248d6a61d20638b8e5c026930c3e6039a33ce45964ff2167f6ecedd419db06c1".
Proof. vm_compute. reflexivity. Qed.

(** RFC 4231, test cases 2 and 6 (a key longer than a block). *)
Lemma hmac_sha256_jefe :
  hex (Hmac.sha256 (lit "Jefe") (lit "what do ya want for nothing?"))
  = lit "5bdcc146bf60754e6a042426089575c75a003f089d2739839dec58b964ec3843".
Proof. vm_compute. reflexivity. Qed.

Lemma hmac_sha256_long_key :
  hex (Hmac.sha256 (repeat 0xaa 131)
         (lit "Test Using Larger Than Block-Size Key - Hash Key First"))
  = lit "60e431591ee0b67f0d8a26aacbf5b77f8e0bc6213728c5140546040f0ee37f54".
Proof. vm_compute. reflexivity. Qed.

(** The signature of the scenario of the specification. *)
Lemma example_signature :
  expected_signature (lit "abc123") (example_body "order_created")
  = lit "e170ce384a82364552e4a9f3974b9bc7587ea5dedc1746a60d743f7eb4ddea5a".
Proof. vm_compute. reflexivity. Qed.

Lemma word_bytes_range (w : Z) : Forall byte_range (Sha256.word_bytes w).
Proof.
  unfold Sha256.word_bytes, byte_range.
  repeat constructor; apply Z.mod_pos_bound; lia.
Qed.

(** A SHA-256 digest is 32 bytes. *)
Lemma digest_range (msg : bytes) : Forall byte_range (Sha256.digest msg).
Proof.
  unfold Sha256.digest.
  destruct (fold_left _ _ _) as [[[[[[[a b] c] d] e] f] g] h].
  repeat (apply Forall_app; split); apply word_bytes_range.
Qed.

Lemma digest_length (msg : bytes) : length (Sha256.digest msg) = 32%nat.
Proof.
  unfold Sha256.digest.
  destruct (fold_left _ _ _) as [[[[[[[a b] c] d] e] f] g] h].
  reflexivity.
Qed.

Lemma hex_digit_lower (d : Z) : 0 <= d < 16 -> lower_hex (hex_digit d).
Proof.
  intros H. unfold hex_digit, lower_hex.
  destruct (Z.ltb_spec d 10); lia.
Qed.

Lemma hex_lower (bs : bytes) :
  Forall byte_range bs -> Forall lower_hex (hex bs).
Proof.
  induction 1 as [|b bs Hb _ IH]; [constructor|].
  unfold byte_range in Hb.
  change (hex (b :: bs))
    with (hex_digit (b / 16) :: hex_digit (b mod 16) :: hex bs).
  constructor; [|constructor; [|exact IH]]; apply hex_digit_lower.
  - split; [apply Z.div_pos; lia|apply Z.div_lt_upper_bound; lia].
  - apply Z.mod_pos_bound. lia.
Qed.

Lemma hex_length (bs : bytes) : length (hex bs) = (2 * length bs)%nat.
Proof.
  induction bs as [|b bs IH]; [reflexivity|].
  change (hex (b :: bs))
    with (hex_digit (b / 16) :: hex_digit (b mod 16) :: hex bs).
  cbn [length]. rewrite IH. lia.
Qed.

(** The hexadecimal HMAC-SHA256 is 64 lowercase hexadecimal digits. *)
Lemma hmac_hex_lower (key msg : bytes) :
  Forall lower_hex (hex (Hmac.sha256 key msg)).
Proof. apply hex_lower, digest_range. Qed.

Lemma hmac_hex_length (key msg : bytes) :
  length (hex (Hmac.sha256 key msg)) = 64%nat.
Proof.
  rewrite hex_length. unfold Hmac.sha256. now rewrite digest_length.
Qed.

Lemma lower_hex_ascii (s : jsstring) :
  Forall lower_hex s -> Forall (fun c => c < 0x80) s.
Proof. apply Forall_impl. unfold lower_hex. lia. Qed.

(** It is its own UTF-8 encoding. *)
Lemma hmac_hex_encode (key msg : bytes) :
  Utf8.encode (hex (Hmac.sha256 key msg)) = hex (Hmac.sha256 key msg).
Proof. apply Utf8Facts.encode_ascii, lower_hex_ascii, hmac_hex_lower. Qed.

(** On a well-formed UTF-8 body the handler's digest is the signature
    of the body. *)
Lemma handler_digest_well_formed (secret : jsstring) (B : bytes) :
  Utf8.well_formed B = true ->
  handler_digest secret B = expected_signature secret B.
Proof.
  intros W. unfold handler_digest, expected_signature.
  now rewrite Utf8Facts.roundtrip.
Qed.

End DigestFacts.

(** ** [crypto.timingSafeEqual] *)

Module CompareFacts.

Lemma difference_zero (a : bytes) :
  forall b acc, length a = length b ->
  difference a b acc = 0 <-> acc = 0 /\ a = b.
Proof.
  induction a as [|x a IH]; intros [|y b] acc L; try discriminate.
  - cbn. intuition.
  - cbn [difference]. injection L as L. rewrite (IH b _ L).
    rewrite Z.lor_eq_0_iff, Z.lxor_eq_0_iff. split.
    + intros [[-> ->] ->]. auto.
    + intros [-> E]. injection E as -> ->. auto.
Qed.

(** On buffers of one length the comparison is equality. *)
Lemma constant_time_equal_spec (a b : bytes) :
  length a = length b -> (constant_time_equal a b = true <-> a = b).
Proof.
  intros L. unfold constant_time_equal. rewrite Z.eqb_eq.
  rewrite (difference_zero a b 0 L). intuition.
Qed.

Lemma constant_time_equal_refl (a : bytes) : constant_time_equal a a = true.
Proof. now apply constant_time_equal_spec. Qed.

End CompareFacts.

(** ** [JSON.parse] *)

Module JsonFacts.

Import Json.

Local Open Scope nat_scope.

Lemma skip_ws_length (s : jsstring) : length (skip_ws s) <= length s.
Proof.
  induction s as [|c s IH]; [reflexivity|]. cbn [skip_ws].
  destruct (is_ws c); cbn [length]; lia.
Qed.

Lemma digits_length (s : jsstring) : length (snd (digits s)) <= length s.
Proof.
  induction s as [|c s IH]; [reflexivity|]. cbn [digits].
  destruct (is_digit c); [|reflexivity].
  destruct (digits s) as [ds r]. cbn [snd length] in *. lia.
Qed.

Lemma strip_prefix_length (p : jsstring) :
  forall s r, strip_prefix p s = Some r -> length r + length p = length s.
Proof.
  induction p as [|a p IH]; intros s r E.
  - cbn in E. injection E as ->. cbn. lia.
  - destruct s as [|b s]; [discriminate|]. cbn [strip_prefix] in E.
    destruct (a =? b)%Z; [|discriminate]. apply IH in E. cbn [length]. lia.
Qed.

(** A string, a number and a keyword consume at least one character and
    need no fuel. *)
Lemma string_body_upto (n : nat) :
  forall s acc, length s <= n ->
  string_body s acc <> OutOfFuel
  /\ forall x r, string_body s acc = Ok x r -> length r < length s.
Proof.
  induction n as [|n IH]; intros s acc L.
  { destruct s; [|cbn in L; lia]. split; [discriminate|]. discriminate. }
  destruct s as [|c r]; [split; discriminate|]. cbn [string_body length] in *.
  destruct (c =? 34)%Z.
  { split; [discriminate|]. intros x r' E. injection E as _ <-. lia. }
  destruct (c =? 92)%Z.
  { destruct r as [|e r']; [split; discriminate|]. cbn [length] in *.
    destruct (e =? 117)%Z.
    - destruct r' as [|h1 [|h2 [|h3 [|h4 r'']]]]; try (split; discriminate).
      destruct (hex4 h1 h2 h3 h4); [|split; discriminate].
      cbn [length] in *. destruct (IH r'' (z :: acc)) as [F G]; [lia|].
      split; [exact F|]. intros x r E. apply G in E. lia.
    - destruct (escape e); [|split; discriminate].
      destruct (IH r' (z :: acc)) as [F G]; [lia|].
      split; [exact F|]. intros x r E. apply G in E. lia. }
  destruct (c <? 32)%Z; [split; discriminate|].
  destruct (IH r (c :: acc)) as [F G]; [lia|].
  split; [exact F|]. intros x r' E. apply G in E. lia.
Qed.

Lemma string_body_fuel (s acc : jsstring) : string_body s acc <> OutOfFuel.
Proof. now apply (string_body_upto (length s)). Qed.

Lemma string_body_length (s acc x r : jsstring) :
  string_body s acc = Ok x r -> length r < length s.
Proof. now apply (string_body_upto (length s)). Qed.

Lemma number_spec (s : jsstring) :
  number s <> OutOfFuel
  /\ forall x r, number s = Ok x r -> length r < length s.
Proof.
  unfold number.
  assert (S1 : exists sign s1,
             match s with
             | c :: r => if (c =? 45)%Z then ([45%Z], r) else ([], s)
             | [] => ([], s)
             end = (sign, s1) /\ length s1 <= length s).
  { destruct s as [|c r]; [do 2 eexists; split; reflexivity|].
    destruct (c =? 45)%Z; do 2 eexists; (split; [reflexivity|]);
      cbn [length]; lia. }
  destruct S1 as (sign & s1 & -> & L1).
  destruct s1 as [|c r]; [split; discriminate|].
  destruct (negb (is_digit c)); [split; discriminate|].
  assert (S2 : exists int s2,
             (if (c =? 48)%Z then ([c], r)
              else let '(ds, r') := digits r in (c :: ds, r')) = (int, s2)
             /\ length s2 <= length r).
  { destruct (c =? 48)%Z; [do 2 eexists; split; reflexivity|].
    pose proof (digits_length r) as D. destruct (digits r) as [ds r'].
    do 2 eexists; split; [reflexivity|exact D]. }
  destruct S2 as (int & s2 & -> & L2). cbn [length] in L1.
  assert (S3 : match s2 with
               | d :: r2 =>
                   if (d =? 46)%Z then
                     match digits r2 with
                     | ([], _) => Bad r2
                     | (ds, r3) => Ok (d :: ds) r3
                     end
                   else Ok [] s2
               | [] => Ok [] s2
               end <> OutOfFuel
               /\ forall fr s3,
                    match s2 with
                    | d :: r2 =>
                        if (d =? 46)%Z then
                          match digits r2 with
                          | ([], _) => Bad r2
                          | (ds, r3) => Ok (d :: ds) r3
                          end
                        else Ok [] s2
                    | [] => Ok [] s2
                    end = Ok fr s3 -> length s3 <= length s2).
  { destruct s2 as [|d r2]; [split; [discriminate|]|].
    { intros fr s3 E. injection E as _ <-. lia. }
    destruct (d =? 46)%Z.
    2:{ split; [discriminate|]. intros fr s3 E. injection E as _ <-. lia. }
    pose proof (digits_length r2) as D. destruct (digits r2) as [[|x ds] r3];
      (split; [discriminate|]); intros fr s3 E; [discriminate|].
    injection E as _ <-. cbn [snd length] in *. lia. }
  destruct S3 as [F3 G3].
  match goal with
  | |- context [match ?frac with Ok _ _ => _ | Bad r' => Bad r'
                                 | OutOfFuel => OutOfFuel end] =>
      destruct frac as [fr s3| |] eqn:E3
  end; [|split; discriminate|contradiction].
  specialize (G3 fr s3 eq_refl).
  assert (S4 : forall ex s4,
             match s3 with
             | e :: r3 =>
                 if ((e =? 101) || (e =? 69))%Z then
                   let '(esign, r4) :=
                     match r3 with
                     | g :: r3' =>
                         if ((g =? 43) || (g =? 45))%Z then ([g], r3')
                         else ([], r3)
                     | [] => ([], r3)
                     end in
                   match digits r4 with
                   | ([], _) => Bad r4
                   | (ds, r5) => Ok (e :: esign ++ ds) r5
                   end
                 else Ok [] s3
             | [] => Ok [] s3
             end = Ok ex s4 -> length s4 <= length s3).
  { intros ex s4. destruct s3 as [|e r3].
    { intros E. injection E as _ <-. lia. }
    destruct ((e =? 101) || (e =? 69))%Z.
    2:{ intros E. injection E as _ <-. lia. }
    assert (S5 : exists esign r4,
               match r3 with
               | g :: r3' =>
                   if ((g =? 43) || (g =? 45))%Z then ([g], r3')
                   else ([], r3)
               | [] => ([], r3)
               end = (esign, r4) /\ length r4 <= length r3).
    { destruct r3 as [|g r3']; [do 2 eexists; split; reflexivity|].
      destruct ((g =? 43) || (g =? 45))%Z; do 2 eexists;
        (split; [reflexivity|]); cbn [length]; lia. }
    destruct S5 as (esign & r4 & -> & L5).
    pose proof (digits_length r4) as D. destruct (digits r4) as [[|x ds] r5];
      intros E; [discriminate|].
    injection E as _ <-. cbn [snd length] in *. lia. }
  match goal with
  | |- context [match ?exp with Ok _ _ => _ | Bad r' => Bad r'
                                | OutOfFuel => OutOfFuel end] =>
      assert (F4 : exp <> OutOfFuel);
      [|destruct exp as [ex s4| |] eqn:E4]
  end.
  { destruct s3 as [|e r3]; [discriminate|].
    destruct ((e =? 101) || (e =? 69))%Z; [|discriminate].
    destruct (match r3 with [] => _ | _ => _ end) as [esign r4].
    destruct (digits r4) as [[|x ds] r5]; discriminate. }
  - split; [discriminate|]. intros x r' E. injection E as _ <-.
    specialize (S4 ex s4 eq_refl). pose proof (skip_ws_length s). lia.
  - split; discriminate.
  - contradiction.
Qed.

Lemma keyword_spec (s : jsstring) :
  keyword s <> OutOfFuel
  /\ forall v r, keyword s = Ok v r -> length r < length s.
Proof.
  unfold keyword.
  destruct (strip_prefix (lit "true") s) eqn:E1.
  { split; [discriminate|]. intros v r E. injection E as _ <-.
    apply strip_prefix_length in E1. cbn in E1. lia. }
  destruct (strip_prefix (lit "false") s) eqn:E2.
  { split; [discriminate|]. intros v r E. injection E as _ <-.
    apply strip_prefix_length in E2. cbn in E2. lia. }
  destruct (strip_prefix (lit "null") s) eqn:E3; [|split; discriminate].
  split; [discriminate|]. intros v r E. injection E as _ <-.
  apply strip_prefix_length in E3. cbn in E3. lia.
Qed.

(** With fuel for twice its length a text is parsed without running
    out, and a value consumes at least one character. *)
Lemma fuel_enough (fuel : nat) :
  (forall s, 2 * length s + 1 <= fuel ->
             r_ok s (value fuel s))
  /\ (forall s acc, 2 * length s + 2 <= fuel ->
                    r_ok s (elements fuel s acc))
  /\ (forall s acc, 2 * length s + 2 <= fuel ->
                    r_ok s (members fuel s acc)).
Proof.
  induction fuel as [|fuel (IHv & IHe & IHm)].
  { repeat split; intros; lia. }
  split; [|split].
  - intros s L. cbn [value].
    pose proof (skip_ws_length s) as Ws.
    destruct (skip_ws s) as [|c r]; [split; discriminate|].
    cbn [length] in Ws.
    destruct (c =? 123)%Z.
    { pose proof (skip_ws_length r) as Wr.
      destruct (skip_ws r) as [|c' r']; [split; discriminate|].
      cbn [length] in Wr.
      destruct (c' =? 125)%Z.
      - split; [discriminate|]. intros v rest E. injection E as _ <-. lia.
      - destruct (IHm (c' :: r') []) as [F G]; [cbn [length]; lia|].
        split; [exact F|]. intros v rest E. apply G in E.
        cbn [length] in E. lia. }
    destruct (c =? 91)%Z.
    { pose proof (skip_ws_length r) as Wr.
      destruct (skip_ws r) as [|c' r']; [split; discriminate|].
      cbn [length] in Wr.
      destruct (c' =? 93)%Z.
      - split; [discriminate|]. intros v rest E. injection E as _ <-. lia.
      - destruct (IHe (c' :: r') []) as [F G]; [cbn [length]; lia|].
        split; [exact F|]. intros v rest E. apply G in E.
        cbn [length] in E. lia. }
    destruct (c =? 34)%Z.
    { pose proof (string_body_fuel r []) as F.
      pose proof (string_body_length r []) as G.
      destruct (string_body r []) as [str r'| |];
        [|split; discriminate|contradiction].
      split; [discriminate|]. intros v rest E. injection E as _ <-.
      specialize (G str r' eq_refl). lia. }
    destruct ((c =? 45)%Z || is_digit c).
    { destruct (number_spec (c :: r)) as [F G].
      destruct (number (c :: r)) as [lexeme r'| |];
        [|split; discriminate|contradiction].
      split; [discriminate|]. intros v rest E. injection E as _ <-.
      specialize (G lexeme r' eq_refl). cbn [length] in G. lia. }
    destruct (keyword_spec (c :: r)) as [F G].
    split; [exact F|]. intros v rest E. apply G in E.
    cbn [length] in E. lia.
  - intros s acc L. cbn [elements].
    destruct (IHv s) as [F G]; [lia|].
    destruct (value fuel s) as [v r| |];
      [|split; discriminate|contradiction].
    specialize (G v r eq_refl).
    pose proof (skip_ws_length r) as Wr.
    destruct (skip_ws r) as [|c r']; [split; discriminate|].
    cbn [length] in Wr.
    destruct (c =? 44)%Z.
    { destruct (IHe r' (v :: acc)) as [F' G']; [lia|].
      split; [exact F'|]. intros w rest E. apply G' in E. lia. }
    destruct (c =? 93)%Z; [|split; discriminate].
    split; [discriminate|]. intros w rest E. injection E as _ <-. lia.
  - intros s acc L. cbn [members].
    pose proof (skip_ws_length s) as Ws.
    destruct (skip_ws s) as [|q r]; [split; discriminate|].
    cbn [length] in Ws.
    destruct (negb (q =? 34)%Z); [split; discriminate|].
    pose proof (string_body_fuel r []) as F.
    pose proof (string_body_length r []) as G.
    destruct (string_body r []) as [key r1| |];
      [|split; discriminate|contradiction].
    specialize (G key r1 eq_refl).
    pose proof (skip_ws_length r1) as W1.
    destruct (skip_ws r1) as [|colon r2]; [split; discriminate|].
    cbn [length] in W1.
    destruct (negb (colon =? 58)%Z); [split; discriminate|].
    destruct (IHv r2) as [Fv Gv]; [lia|].
    destruct (value fuel r2) as [v r3| |];
      [|split; discriminate|contradiction].
    specialize (Gv v r3 eq_refl).
    pose proof (skip_ws_length r3) as W3.
    destruct (skip_ws r3) as [|c r4]; [split; discriminate|].
    cbn [length] in W3.
    destruct (c =? 44)%Z.
    { destruct (IHm r4 ((key, v) :: acc)) as [F' G']; [lia|].
      split; [exact F'|]. intros w rest E. apply G' in E. lia. }
    destruct (c =? 125)%Z; [|split; discriminate].
    split; [discriminate|]. intros w rest E. injection E as _ <-. lia.
Qed.

(** [JSON.parse] never runs out of fuel. *)
Lemma parse_fuel (text : jsstring) :
  value (fuel_for text) text <> OutOfFuel.
Proof.
  apply (fuel_enough (fuel_for text)). unfold fuel_for. lia.
Qed.

End JsonFacts.

(** ** The handler *)

Section HandlerFacts.

Variable message_of : fault -> jsstring.
Variable number_to_string : jsstring -> jsstring.

Local Abbreviation handler :=
  (Handler.handler message_of number_to_string).
Local Abbreviation try_block :=
  (Handler.try_block message_of number_to_string).
Local Abbreviation after_verification :=
  (Handler.after_verification message_of number_to_string).
Local Abbreviation property := (Handler.property message_of).
Local Abbreviation ToString :=
  (Handler.ToString message_of number_to_string).
Local Abbreviation error f := (ThrowError (message_of f)).

(** *** The five ways through the verification *)

Lemma try_block_rejected (secret : jsstring) (req : request) (e : thrown) :
  buffer req = Rejected e ->
  try_block secret req = ([], inl e).
Proof. intros R. unfold Handler.try_block. rewrite R. reflexivity. Qed.

Lemma try_block_no_header (secret : jsstring) (req : request) (v : chunk) :
  buffer req = Resolved v ->
  x_signature req = None ->
  try_block secret req
  = ([hmac_call_on secret v], inl (error InvalidArgType)).
Proof.
  intros R E. unfold Handler.try_block, hmac_hex. rewrite R, E. reflexivity.
Qed.

Lemma try_block_length (secret : jsstring) (req : request) (v : chunk)
    (X : jsstring) :
  buffer req = Resolved v ->
  x_signature req = Some X ->
  length (Utf8.encode X) <> 64%nat ->
  try_block secret req
  = ([hmac_call_on secret v;
      TimingSafeEqual (Utf8.encode (digest_of secret (toString v)))
                      (Utf8.encode X) None],
     inl (error TimingSafeEqualLength)).
Proof.
  intros R E L. unfold Handler.try_block, hmac_hex, timingSafeEqual.
  rewrite R, E. cbn [await bind emit ret Buffer_from app].
  fold (digest_of secret (toString v)).
  replace (length (Utf8.encode (digest_of secret (toString v)))
           =? length (Utf8.encode X))%nat with false; [reflexivity|].
  symmetry. apply Nat.eqb_neq. unfold digest_of.
  rewrite DigestFacts.hmac_hex_encode, DigestFacts.hmac_hex_length. auto.
Qed.

Lemma try_block_reject (secret : jsstring) (req : request) (v : chunk)
    (X : jsstring) :
  buffer req = Resolved v ->
  x_signature req = Some X ->
  length (Utf8.encode X) = 64%nat ->
  X <> digest_of secret (toString v) ->
  try_block secret req
  = ([hmac_call_on secret v;
      TimingSafeEqual (Utf8.encode (digest_of secret (toString v)))
                      (Utf8.encode X) (Some false)],
     inr (Some invalid_signature)).
Proof.
  intros R E L N. unfold Handler.try_block, hmac_hex, timingSafeEqual.
  rewrite R, E. cbn [await bind emit ret Buffer_from app].
  fold (digest_of secret (toString v)).
  assert (L' : length (Utf8.encode (digest_of secret (toString v)))
               = length (Utf8.encode X)).
  { unfold digest_of.
    now rewrite DigestFacts.hmac_hex_encode, DigestFacts.hmac_hex_length. }
  rewrite L', Nat.eqb_refl.
  destruct (constant_time_equal _ _) eqn:C; [|reflexivity].
  exfalso. apply N. apply CompareFacts.constant_time_equal_spec in C; [|easy].
  unfold digest_of in *. rewrite DigestFacts.hmac_hex_encode in C.
  symmetry in C. apply Utf8Facts.encode_ascii_inv in C; [easy|].
  apply DigestFacts.lower_hex_ascii, DigestFacts.hmac_hex_lower.
Qed.

Lemma try_block_accept (secret : jsstring) (req : request) (v : chunk) :
  buffer req = Resolved v ->
  x_signature req = Some (digest_of secret (toString v)) ->
  let d := Utf8.encode (digest_of secret (toString v)) in
  let '(log, r) := after_verification (toString v) in
  try_block secret req
  = (hmac_call_on secret v :: TimingSafeEqual d d (Some true) :: log, r).
Proof.
  intros R E. cbn zeta.
  destruct (after_verification _) as [log r] eqn:A.
  unfold Handler.try_block, hmac_hex, timingSafeEqual.
  rewrite R, E. cbn [await bind emit ret Buffer_from app].
  fold (digest_of secret (toString v)).
  rewrite Nat.eqb_refl, CompareFacts.constant_time_equal_refl.
  cbn [bind emit ret Buffer_from app negb]. rewrite A. reflexivity.
Qed.

(** *** After the verification *)

Lemma property_cases (v : jsvalue) (key : jsstring) :
  property v key = ([], inl (error (NullishProperty v key)))
  \/ property v key = ret (Get v key).
Proof. destruct v; auto. Qed.

Lemma property_undefined (key : jsstring) :
  property JUndefined key
  = ([], inl (error (NullishProperty JUndefined key))).
Proof. reflexivity. Qed.

Lemma property_defined (v : jsvalue) (key : jsstring) :
  Get v key <> JUndefined -> property v key = ret (Get v key).
Proof. destruct v; try reflexivity; cbn; congruence. Qed.

Lemma Get_string_defined (v : jsvalue) (key k s : jsstring) :
  Get (Get v key) k = JString s -> Get v key <> JUndefined.
Proof. intros H E. rewrite E in H. discriminate. Qed.

(** A well-formed event is destructured without error. *)
Lemma destructure_event (payload : jsvalue)
    (eventName userId orderId identifier : jsstring) {A : Type}
    (k : jsvalue -> jsvalue -> jsvalue -> jsvalue -> M A) :
  webhook_event payload eventName userId orderId identifier ->
  (meta <- property payload (lit "meta") ;;
   eventName <- property meta (lit "event_name") ;;
   custom_data <- property meta (lit "custom_data") ;;
   userId <- property custom_data (lit "userId") ;;
   data <- property payload (lit "data") ;;
   orderId <- property data (lit "id") ;;
   attributes <- property data (lit "attributes") ;;
   identifier <- property attributes (lit "identifier") ;;
   k eventName userId orderId identifier)
  = k (JString eventName) (JString userId) (JString orderId)
      (JString identifier).
Proof.
  intros (He & Hu & Ho & Hi).
  rewrite (property_defined payload) by (eapply Get_string_defined, He).
  cbn [bind ret]. rewrite property_defined by congruence.
  cbn [bind ret app].
  rewrite (property_defined (Get payload (lit "meta")))
    by (eapply Get_string_defined, Hu).
  cbn [bind ret app]. rewrite property_defined by congruence.
  cbn [bind ret app].
  rewrite (property_defined payload) by (eapply Get_string_defined, Ho).
  cbn [bind ret app]. rewrite property_defined by congruence.
  cbn [bind ret app].
  rewrite (property_defined (Get payload (lit "data")))
    by (eapply Get_string_defined, Hi).
  cbn [bind ret app]. rewrite property_defined by congruence.
  cbn [bind ret app]. rewrite He, Hu, Ho, Hi.
  destruct (k _ _ _ _) as [log r]. reflexivity.
Qed.


Lemma jsstring_eqb_refl (s : jsstring) : jsstring_eqb s s = true.
Proof. unfold jsstring_eqb. now destruct (list_eq_dec Z.eq_dec s s). Qed.

Lemma jsstring_eqb_eq (s t : jsstring) : jsstring_eqb s t = true <-> s = t.
Proof.
  unfold jsstring_eqb. destruct (list_eq_dec Z.eq_dec s t); intuition.
  discriminate.
Qed.

Lemma after_verification_syntax (text : jsstring) (position : nat) :
  Json.parse text = inl position ->
  after_verification text
  = ([JsonParse text], inl (error (JsonSyntax text position))).
Proof.
  intros E. unfold Handler.after_verification, JSON_parse. now rewrite E.
Qed.

Lemma after_verification_event (text : jsstring) (payload : jsvalue)
    (eventName userId orderId identifier : jsstring) :
  Json.parse text = inr payload ->
  webhook_event payload eventName userId orderId identifier ->
  after_verification text
  = ([JsonParse text; Dispatch (branch_of eventName)],
     inr (if recognized eventName then None
          else Some (unknown_event eventName identifier orderId))).
Proof.
  intros E W. unfold Handler.after_verification, JSON_parse. rewrite E.
  cbn [bind emit ret app].
  rewrite (destructure_event payload eventName userId orderId identifier
             _ W).
  unfold recognized, branch_of, strict_equal.
  destruct (jsstring_eqb eventName (lit "order_created")); [reflexivity|].
  destruct (jsstring_eqb eventName (lit "order_refunded")); [reflexivity|].
  destruct (jsstring_eqb eventName (lit "")); reflexivity.
Qed.

(** The conversion to a string makes no call that is logged, and what
    it throws is the [TypeError] of an object without a callable
    [toString]. *)
Lemma ToString_silent :
  forall v, silent (error NotPrimitive) (ToString v).
Proof.
  fix IH 1. intros [| | [|] | lexeme | str | elements | ms];
    try (split; [reflexivity|discriminate]).
  - cbn [Handler.ToString].
    induction elements as [|x rest IHrest];
      [split; [reflexivity|discriminate]|].
    cbv beta iota.
    match goal with
    | |- silent _ (bind ?m _) =>
        assert (Hx : silent (error NotPrimitive) m)
          by (pose proof (IH x) as IHx; destruct x;
              try (split; [reflexivity|discriminate]); exact IHx);
        destruct m as [log [e|first]]
    end; destruct Hx as [Hx Hx']; cbn [fst snd] in Hx, Hx'; subst log.
    { split; [reflexivity|]. cbn [bind snd]. intros e' E.
      injection E as <-. now apply Hx'. }
    cbn [bind].
    match type of IHrest with
    | silent _ ?t => destruct t as [log [e|others]]
    end; destruct IHrest as [Hr Hr']; cbn [fst snd] in Hr, Hr'; subst log;
      destruct rest; (split; [reflexivity|]); cbn; try discriminate;
      intros e' E; injection E as <-; now apply Hr'.
  - cbn [Handler.ToString].
    destruct (Json.own_property ms (lit "toString"));
      (split; [reflexivity|]); [|discriminate].
    intros e E. now injection E as <-.
Qed.

(** After [JSON.parse] only the branch taken is logged, and what is
    thrown is an [Error] of the runtime. *)
Lemma after_verification_spec (text : jsstring) :
  exists l r, after_verification text = (JsonParse text :: l, r)
              /\ forallb is_dispatch l = true
              /\ forall e, r = inl e -> exists f, e = error f.
Proof.
  unfold Handler.after_verification, JSON_parse.
  destruct (Json.parse text) as [position|payload].
  { do 2 eexists. split; [reflexivity|]. split; [reflexivity|].
    intros e E. injection E as <-. eauto. }
  cbn [bind emit ret app].
  repeat match goal with
    | |- context [Handler.property _ ?v ?k] =>
        destruct (property_cases v k) as [E|E]; rewrite E; clear E;
        cbn [bind ret app];
        [do 2 eexists; split; [reflexivity|]; split; [reflexivity|];
         intros e E; injection E as <-; eauto|]
    end.
  repeat match goal with
    | |- context [if strict_equal ?v ?s then _ else _] =>
        destruct (strict_equal v s);
        [do 2 eexists; split; [reflexivity|]; split; [reflexivity|];
         discriminate|]
    end.
  cbn [bind emit ret app].
  repeat match goal with
    | |- context [Handler.ToString _ _ ?v] =>
        let Q := fresh "Q" in
        let Q' := fresh "Q" in
        let log := fresh "log" in
        destruct (ToString_silent v) as [Q Q'];
        destruct (ToString v) as [log [?|?]]; cbn [fst snd] in Q, Q';
        subst log; cbn [bind ret app];
        [do 2 eexists; split; [reflexivity|]; split; [reflexivity|];
         intros e E; injection E as <-; eauto|]
    end.
  do 2 eexists. split; [reflexivity|]. split; [reflexivity|]. discriminate.
Qed.

Lemma after_verification_log (text : jsstring) :
  exists l, fst (after_verification text) = JsonParse text :: l
            /\ forallb is_dispatch l = true.
Proof.
  destruct (after_verification_spec text) as (l & r & E & D & _).
  exists l. now rewrite E.
Qed.

(** *** Destructuring and the branches *)

Lemma property_present (v : jsvalue) (key : jsstring) :
  present v = true -> property v key = ret (Get v key).
Proof. destruct v; try reflexivity; discriminate. Qed.

Lemma property_absent (v : jsvalue) (key : jsstring) :
  present v = false ->
  property v key = ([], inl (error (NullishProperty v key))).
Proof. destruct v; try reflexivity; discriminate. Qed.

(** The destructuring succeeds exactly on a destructurable payload, and
    then binds the four properties whatever they are. *)
Lemma destructure_present (payload : jsvalue) {A : Type}
    (k : jsvalue -> jsvalue -> jsvalue -> jsvalue -> M A) :
  destructurable payload = true ->
  (meta <- property payload (lit "meta") ;;
   eventName <- property meta (lit "event_name") ;;
   custom_data <- property meta (lit "custom_data") ;;
   userId <- property custom_data (lit "userId") ;;
   data <- property payload (lit "data") ;;
   orderId <- property data (lit "id") ;;
   attributes <- property data (lit "attributes") ;;
   identifier <- property attributes (lit "identifier") ;;
   k eventName userId orderId identifier)
  = k (event_name_of payload)
      (Get (Get (Get payload (lit "meta")) (lit "custom_data"))
           (lit "userId"))
      (Get (Get payload (lit "data")) (lit "id"))
      (Get (Get (Get payload (lit "data")) (lit "attributes"))
           (lit "identifier")).
Proof.
  unfold destructurable. cbn zeta. intros D.
  repeat (apply andb_true_iff in D; destruct D as [D ?]).
  repeat (rewrite property_present by assumption; cbn [bind ret app]).
  unfold event_name_of. destruct (k _ _ _ _) as [log r]. reflexivity.
Qed.

Lemma destructure_absent (payload : jsvalue) {A : Type}
    (k : jsvalue -> jsvalue -> jsvalue -> jsvalue -> M A) :
  destructurable payload = false ->
  exists v key,
    (meta <- property payload (lit "meta") ;;
     eventName <- property meta (lit "event_name") ;;
     custom_data <- property meta (lit "custom_data") ;;
     userId <- property custom_data (lit "userId") ;;
     data <- property payload (lit "data") ;;
     orderId <- property data (lit "id") ;;
     attributes <- property data (lit "attributes") ;;
     identifier <- property attributes (lit "identifier") ;;
     k eventName userId orderId identifier)
    = ([], inl (error (NullishProperty v key))).
Proof.
  unfold destructurable. cbn zeta. intros D.
  repeat match goal with
    | |- context [Handler.property _ ?v ?key] =>
        first
          [ rewrite (property_present v key) by assumption
          | let E := fresh "E" in
            destruct (present v) eqn:E;
            [rewrite (property_present v key) by assumption
            |rewrite (property_absent v key) by assumption;
             do 2 eexists; reflexivity] ];
        cbn [bind ret app]
    end.
  discriminate.
Qed.

Lemma strict_equal_eq (v : jsvalue) (s : jsstring) :
  strict_equal v s = true <-> v = JString s.
Proof.
  destruct v; cbn; try (split; discriminate).
  rewrite jsstring_eqb_eq. split; congruence.
Qed.

(** What follows the verification, case by case. *)
Lemma after_verification_absent (text : jsstring) (payload : jsvalue) :
  Json.parse text = inr payload ->
  destructurable payload = false ->
  exists v key,
    after_verification text
    = ([JsonParse text], inl (error (NullishProperty v key))).
Proof.
  intros J D. unfold Handler.after_verification, JSON_parse. rewrite J.
  cbn [bind emit ret app].
  edestruct (@destructure_absent payload (option response))
    as (v & key & E); [exact D|].
  exists v, key. rewrite E. reflexivity.
Qed.

Lemma after_verification_present (text : jsstring) (payload : jsvalue) :
  Json.parse text = inr payload ->
  destructurable payload = true ->
  after_verification text
  = (let eventName := event_name_of payload in
     let orderId := Get (Get payload (lit "data")) (lit "id") in
     let identifier :=
       Get (Get (Get payload (lit "data")) (lit "attributes"))
           (lit "identifier") in
     emit (JsonParse text) ;;;
     if strict_equal eventName (lit "order_created") then
       emit (Dispatch OrderCreated) ;;; ret None
     else if strict_equal eventName (lit "order_refunded") then
       emit (Dispatch OrderRefunded) ;;; ret None
     else if strict_equal eventName (lit "") then
       emit (Dispatch EmptyName) ;;; ret None
     else
       emit (Dispatch UnknownName) ;;;
       name <- ToString eventName ;;
       ident <- ToString identifier ;;
       order <- ToString orderId ;;
       ret (Some (json 400 (lit "Unknown event name: " ++ name
                            ++ lit " for order: " ++ ident
                            ++ lit " (" ++ order ++ lit ")")))).
Proof.
  intros J D. unfold Handler.after_verification, JSON_parse. rewrite J.
  cbn [bind emit ret app]. rewrite (destructure_present payload _ D).
  cbn zeta. reflexivity.
Qed.

Lemma after_verification_branches (text : jsstring) (payload : jsvalue) :
  Json.parse text = inr payload ->
  destructurable payload = true ->
  (exists name,
     event_name_of payload = JString name /\ recognized name = true
     /\ after_verification text
        = ([JsonParse text; Dispatch (branch_of name)], inr None))
  \/ ((forall name, event_name_of payload = JString name ->
                    recognized name = false)
      /\ exists r,
           after_verification text
           = ([JsonParse text; Dispatch UnknownName], r)
           /\ (r = inl (error NotPrimitive)
               \/ exists m,
                    r = inr (Some (json 400
                                     (lit "Unknown event name: " ++ m))))).
Proof.
  intros J D. rewrite (after_verification_present text payload J D).
  cbn zeta.
  destruct (strict_equal _ (lit "order_created")) eqn:E1.
  { left. exists (lit "order_created"). apply strict_equal_eq in E1.
    split; [exact E1|]. split; reflexivity. }
  destruct (strict_equal _ (lit "order_refunded")) eqn:E2.
  { left. exists (lit "order_refunded"). apply strict_equal_eq in E2.
    split; [exact E2|]. split; reflexivity. }
  destruct (strict_equal _ (lit "")) eqn:E3.
  { left. exists (lit ""). apply strict_equal_eq in E3.
    split; [exact E3|]. split; reflexivity. }
  right. split.
  { intros name N. rewrite N in E1, E2, E3. cbn [strict_equal] in *.
    unfold recognized. now rewrite E1, E2, E3. }
  cbn [bind emit ret app].
  repeat match goal with
    | |- context [Handler.ToString _ _ ?v] =>
        let Q := fresh "Q" in
        let Q' := fresh "Q" in
        let log := fresh "log" in
        destruct (ToString_silent v) as [Q Q'];
        destruct (ToString v) as [log [?|?]]; cbn [fst snd] in Q, Q';
        subst log; cbn [bind ret app];
        [eexists; split; [reflexivity|]; left; f_equal; now apply Q'|]
    end.
  eexists. split; [reflexivity|]. right. eexists. reflexivity.
Qed.

(** What the handler answers after a valid signature. *)
Lemma settled_outcome (text : jsstring) :
  (exists m, settle catch_clause (snd (after_verification text))
             = Responded (json 400 (lit "Webhook error: " ++ m)))
  \/ (exists m, settle catch_clause (snd (after_verification text))
                = Responded (json 400 (lit "Unknown event name: " ++ m)))
  \/ (settle catch_clause (snd (after_verification text))
      = Responded received
      /\ exists payload name,
           Json.parse text = inr payload
           /\ destructurable payload = true
           /\ event_name_of payload = JString name
           /\ recognized name = true).
Proof.
  destruct (Json.parse text) as [position|payload] eqn:J.
  { left. rewrite (after_verification_syntax text position J).
    eexists. reflexivity. }
  destruct (destructurable payload) eqn:D.
  2:{ left. destruct (after_verification_absent text payload J D)
        as (v & key & E). rewrite E. eexists. reflexivity. }
  destruct (after_verification_branches text payload J D)
    as [(name & N & R & E)|(_ & r & E & [->|[m ->]])]; rewrite E.
  - right. right. split; [reflexivity|]. exists payload, name.
    repeat split; assumption.
  - left. eexists. reflexivity.
  - right. left. eexists. reflexivity.
Qed.

(** *** The handler on a POST request *)

Lemma handler_post (env : option jsstring) (req : request) :
  method req = lit "POST" ->
  handler env req
  = (fst (try_block (signingSecret env) req),
     settle (catch_clause) (snd (try_block (signingSecret env) req))).
Proof.
  intros E. unfold Handler.handler. rewrite E, jsstring_eqb_refl.
  cbn [negb]. destruct (try_block _ _) as [log [e|[r|]]]; reflexivity.
Qed.

(** A request that is not a POST is answered 405 and nothing is
    computed. *)
Lemma other_method_405 (env : option jsstring) (req : request) :
  method req <> lit "POST" ->
  handler env req = ([], Responded (json 405 (lit "Method not allowed"))).
Proof.
  intros N. unfold Handler.handler.
  destruct (jsstring_eqb (method req) (lit "POST")) eqn:E; [|reflexivity].
  apply jsstring_eqb_eq in E. contradiction.
Qed.

(** When [buffer(req)] is rejected nothing is computed and the value
    goes to the [catch] clause. *)
Lemma handler_rejected (env : option jsstring) (req : request) (e : thrown) :
  method req = lit "POST" ->
  buffer req = Rejected e ->
  handler env req = ([], catch_clause e).
Proof.
  intros P R. rewrite handler_post by assumption.
  now rewrite (try_block_rejected _ _ e).
Qed.

Lemma handler_accepted (env : option jsstring) (req : request) (v : chunk) :
  method req = lit "POST" ->
  buffer req = Resolved v ->
  x_signature req = Some (digest_of (signingSecret env) (toString v)) ->
  let secret := signingSecret env in
  let d := Utf8.encode (digest_of secret (toString v)) in
  let after_ := after_verification (toString v) in
  handler env req
  = (hmac_call_on secret v :: TimingSafeEqual d d (Some true) :: fst after_,
     settle catch_clause (snd after_)).
Proof.
  intros E R V. cbn zeta. rewrite handler_post by assumption.
  pose proof (try_block_accept (signingSecret env) req v R V) as T.
  cbn zeta in T. destruct (after_verification _) as [log r].
  now rewrite T.
Qed.

Lemma handler_accept (env : option jsstring) (req : request) :
  method req = lit "POST" ->
  valid_signature env req ->
  let secret := signingSecret env in
  let d := Utf8.encode (handler_digest secret (raw_body req)) in
  let after_ := after_verification (Utf8.decode (raw_body req)) in
  handler env req
  = (hmac_call secret (raw_body req) :: TimingSafeEqual d d (Some true)
     :: fst after_,
     settle catch_clause (snd after_)).
Proof.
  intros E [D V].
  exact (handler_accepted env req (Buffer (raw_body req)) E D V).
Qed.

(** A signature of the digest's length that is not the handler's digest
    is rejected before anything is parsed. *)
Lemma mismatch_rejected (env : option jsstring) (req : request) (v : chunk)
    (X : jsstring) :
  method req = lit "POST" ->
  buffer req = Resolved v ->
  x_signature req = Some X ->
  length (Utf8.encode X) = 64%nat ->
  X <> digest_of (signingSecret env) (toString v) ->
  handler env req
  = ([hmac_call_on (signingSecret env) v;
      TimingSafeEqual
        (Utf8.encode (digest_of (signingSecret env) (toString v)))
        (Utf8.encode X) (Some false)],
     Responded invalid_signature).
Proof.
  intros P R HX L N. rewrite handler_post by assumption.
  now rewrite (try_block_reject _ _ v X).
Qed.

(** A signature of another length makes [timingSafeEqual] throw; the
    [catch] clause answers with the message of that error. *)
Lemma length_mismatch_error (env : option jsstring) (req : request)
    (v : chunk) (X : jsstring) :
  method req = lit "POST" ->
  buffer req = Resolved v ->
  x_signature req = Some X ->
  length (Utf8.encode X) <> 64%nat ->
  handler env req
  = ([hmac_call_on (signingSecret env) v;
      TimingSafeEqual
        (Utf8.encode (digest_of (signingSecret env) (toString v)))
        (Utf8.encode X) None],
     Responded (json 400 (lit "Webhook error: "
                          ++ message_of TimingSafeEqualLength))).
Proof.
  intros P R HX L. rewrite handler_post by assumption.
  now rewrite (try_block_length _ _ v X).
Qed.

Lemma no_header_error (env : option jsstring) (req : request) (v : chunk) :
  method req = lit "POST" ->
  buffer req = Resolved v ->
  x_signature req = None ->
  handler env req
  = ([hmac_call_on (signingSecret env) v],
     Responded (json 400 (lit "Webhook error: "
                          ++ message_of InvalidArgType))).
Proof.
  intros P R HX. rewrite handler_post by assumption.
  now rewrite (try_block_no_header _ _ v).
Qed.

(** The provider's signature of a body that is well-formed UTF-8 and
    handed over as it was sent passes the verification. *)
Lemma provider_signature_valid (env : option jsstring) (req : request) :
  delivered req ->
  Utf8.well_formed (raw_body req) = true ->
  provider_signed env req ->
  valid_signature env req.
Proof.
  intros D W E. split; [exact D|]. unfold provider_signed in E.
  now rewrite DigestFacts.handler_digest_well_formed.
Qed.

(** The ways a POST request goes through the verification. *)
Lemma handler_post_cases (env : option jsstring) (req : request) :
  method req = lit "POST" ->
  (exists e, buffer req = Rejected e
             /\ handler env req = ([], catch_clause e))
  \/ exists v,
       buffer req = Resolved v
       /\ ((x_signature req = None
            /\ handler env req
               = ([hmac_call_on (signingSecret env) v],
                  Responded (json 400 (lit "Webhook error: "
                                       ++ message_of InvalidArgType))))
           \/ (exists X,
                 x_signature req = Some X
                 /\ length (Utf8.encode X) <> 64%nat
                 /\ handler env req
                    = ([hmac_call_on (signingSecret env) v;
                        TimingSafeEqual
                          (Utf8.encode
                             (digest_of (signingSecret env) (toString v)))
                          (Utf8.encode X) None],
                       Responded
                         (json 400 (lit "Webhook error: "
                                    ++ message_of TimingSafeEqualLength))))
           \/ (exists X,
                 x_signature req = Some X
                 /\ length (Utf8.encode X) = 64%nat
                 /\ X <> digest_of (signingSecret env) (toString v)
                 /\ handler env req
                    = ([hmac_call_on (signingSecret env) v;
                        TimingSafeEqual
                          (Utf8.encode
                             (digest_of (signingSecret env) (toString v)))
                          (Utf8.encode X) (Some false)],
                       Responded invalid_signature))
           \/ (x_signature req
               = Some (digest_of (signingSecret env) (toString v))
               /\ handler env req
                  = (hmac_call_on (signingSecret env) v
                     :: TimingSafeEqual
                          (Utf8.encode
                             (digest_of (signingSecret env) (toString v)))
                          (Utf8.encode
                             (digest_of (signingSecret env) (toString v)))
                          (Some true)
                     :: fst (after_verification (toString v)),
                     settle catch_clause
                       (snd (after_verification (toString v)))))).
Proof.
  intros P. destruct (buffer req) as [e|v] eqn:R.
  { left. exists e. split; [reflexivity|]. now apply handler_rejected. }
  right. exists v. split; [reflexivity|].
  destruct (x_signature req) as [X|] eqn:HX.
  2:{ left. split; [reflexivity|]. now apply no_header_error. }
  right. destruct (Nat.eq_dec (length (Utf8.encode X)) 64) as [L|L].
  2:{ left. exists X. split; [reflexivity|]. split; [exact L|].
      now apply length_mismatch_error. }
  right.
  destruct (list_eq_dec Z.eq_dec X
              (digest_of (signingSecret env) (toString v)))
    as [E|E].
  2:{ left. exists X. split; [reflexivity|]. split; [exact L|].
      split; [exact E|]. now apply mismatch_rejected. }
  right. subst X. split; [reflexivity|].
  exact (handler_accepted env req v P R HX).
Qed.

(** *** Logs *)

Lemma dispatch_no_hmac (l : list event) :
  forallb is_dispatch l = true -> hmac_inputs l = [].
Proof.
  induction l as [|e l IH]; [reflexivity|]. cbn [forallb].
  intros H. apply andb_true_iff in H. destruct H as [He Hl].
  destruct e; try discriminate. cbn. now apply IH.
Qed.

Lemma dispatch_no_parse (l : list event) :
  forallb is_dispatch l = true ->
  forall before text after_, l <> before ++ JsonParse text :: after_.
Proof.
  intros H before text after_ E. rewrite E in H.
  rewrite forallb_app in H. apply andb_true_iff in H.
  destruct H as [_ H]. discriminate.
Qed.

(** The log of a POST request: empty when [buffer(req)] is rejected, and
    of one of three shapes when it resolves. *)
Lemma handler_log (env : option jsstring) (req : request) :
  method req = lit "POST" ->
  let log := fst (handler env req) in
  ((exists e, buffer req = Rejected e) /\ log = [])
  \/ exists v,
       buffer req = Resolved v
       /\ let call := hmac_call_on (signingSecret env) v in
          (log = [call]
           \/ (exists a b result, result <> Some true
                                  /\ log = [call; TimingSafeEqual a b result])
           \/ (exists a b l,
                 log = call :: TimingSafeEqual a b (Some true)
                       :: JsonParse (toString v) :: l
                 /\ forallb is_dispatch l = true)).
Proof.
  intros P. cbn zeta.
  destruct (handler_post_cases env req P)
    as [(e & R & E)|(v & R & [[_ E]|[(X & _ & _ & E)|[(X & _ & _ & _ & E)
                                                     |[_ E]]]])];
    rewrite E; clear E; cbn [fst].
  - left. split; [now exists e|reflexivity].
  - right. exists v. split; [exact R|]. now left.
  - right. exists v. split; [exact R|]. right. left.
    do 3 eexists. split; [|reflexivity]. discriminate.
  - right. exists v. split; [exact R|]. right. left.
    do 3 eexists. split; [|reflexivity]. discriminate.
  - right. exists v. split; [exact R|]. right. right.
    destruct (after_verification_log (toString v)) as (l & Hl & D).
    rewrite Hl. do 3 eexists. split; [reflexivity|assumption].
Qed.

(** The digest is taken once, over the encoding of the string the
    handler makes of what [buffer(req)] resolves with. *)
Lemma hmac_inputs_resolved (env : option jsstring) (req : request)
    (v : chunk) :
  method req = lit "POST" ->
  buffer req = Resolved v ->
  hmac_inputs (fst (handler env req)) = [Utf8.encode (toString v)].
Proof.
  intros P R.
  destruct (handler_log env req P)
    as [[[e R'] _]|(v' & R' & H)]; rewrite R in R'; [discriminate|].
  injection R' as <-. cbn zeta in H.
  destruct H as [E|[(a & b & result & _ & E)|(a & b & l & E & D)]];
    rewrite E; try reflexivity.
  cbn. now rewrite dispatch_no_hmac.
Qed.

(** [JSON.parse] comes after a comparison that returned true, and
    without such a comparison nothing is parsed or dispatched. *)
Lemma log_order (env : option jsstring) (req : request) :
  method req = lit "POST" ->
  parsed_only_after_accept (fst (handler env req))
  /\ (existsb is_accept (fst (handler env req)) = false ->
      stopped_at_verification (fst (handler env req))).
Proof.
  intros P.
  destruct (handler_log env req P)
    as [[_ E]|(v & _ & [E|[(a & b & result & R & E)|(a & b & l & E & D)]])];
    cbn zeta in E; rewrite E; clear E.
  - split; [|reflexivity].
    intros [|e before] text after_ E; discriminate.
  - split; [|reflexivity].
    intros [|e [|e' before]] text after_ E; discriminate.
  - split; [|reflexivity].
    intros [|e [|e' [|e'' before]]] text after_ E; discriminate.
  - split.
    + intros [|e [|e' before]] text after_ E; try discriminate.
      injection E as <- <- E. reflexivity.
    + cbn. discriminate.
Qed.

(** The comparison returns true exactly for an accepted request. *)
Lemma accepted_iff (env : option jsstring) (req : request) :
  method req = lit "POST" ->
  existsb is_accept (fst (handler env req)) = true
  <-> accepted env req.
Proof.
  intros P. split.
  - destruct (handler_post_cases env req P)
      as [(e & R & E)|(v & R & [[_ E]|[(X & _ & _ & E)|[(X & _ & _ & _ & E)
                                                       |[V _]]]])];
      try (rewrite E; discriminate).
    intros _. exists v. now split.
  - intros (v & R & V). now rewrite (handler_accepted env req v).
Qed.

(** *** Uppercase signatures *)



(** *** The claims *)

(** C1 (amended).  For every request whose body [buffer(req)] hands over
    as it was sent and is well-formed UTF-8, and every supplied
    x-signature X whose UTF-8 encoding has the length of the digest (64
    bytes) and that is not the hexadecimal HMAC-SHA256 of the body under
    the configured secret, the handler answers 400
    [{ message: "Invalid signature." }] and neither parses nor
    dispatches. *)
Theorem C1_mismatch_rejected (env : option jsstring) (req : request)
    (X : jsstring) :
  method req = lit "POST" ->
  delivered req ->
  x_signature req = Some X ->
  Utf8.well_formed (raw_body req) = true ->
  length (Utf8.encode X) = 64%nat ->
  X <> expected_signature (signingSecret env) (raw_body req) ->
  snd (handler env req) = Responded invalid_signature
  /\ stopped_at_verification (fst (handler env req)).
Proof.
  intros P D HX W L N.
  rewrite <- DigestFacts.handler_digest_well_formed in N by assumption.
  rewrite (mismatch_rejected env req (Buffer (raw_body req)) X P D HX L N).
  split; reflexivity.
Qed.

(** C2.  A POST request without an x-signature header is answered 400,
    but with the message of the [TypeError] that [Buffer.from] throws
    behind "Webhook error: ", not with "Invalid signature.". *)
Theorem C2_missing_header (env : option jsstring) (B : bytes) :
  handler env (post None B)
  = ([hmac_call (signingSecret env) B],
     Responded (json 400 (lit "Webhook error: "
                          ++ message_of InvalidArgType)))
  /\ snd (handler env (post None B)) <> Responded invalid_signature.
Proof.
  assert (E : handler env (post None B)
              = ([hmac_call (signingSecret env) B],
                 Responded (json 400 (lit "Webhook error: "
                                      ++ message_of InvalidArgType)))).
  { exact (no_header_error env (post None B) (Buffer B)
             eq_refl eq_refl eq_refl). }
  split; [exact E|]. rewrite E. cbn. discriminate.
Qed.

(** C3 (amended).  For every POST request: when [buffer(req)] hands over
    the body as it was sent and the body is well-formed UTF-8, the
    HMAC-SHA256 digest is computed once, over the raw bytes of the body;
    [JSON.parse] is called only after the comparison of the signature
    has returned true; and when no comparison returned true nothing is
    parsed or dispatched. *)
Theorem C3_digest_then_parse (env : option jsstring) (req : request) :
  method req = lit "POST" ->
  (delivered req ->
   Utf8.well_formed (raw_body req) = true ->
   hmac_inputs (fst (handler env req)) = [raw_body req])
  /\ parsed_only_after_accept (fst (handler env req))
  /\ (existsb is_accept (fst (handler env req)) = false ->
      stopped_at_verification (fst (handler env req))).
Proof.
  intros P. split; [|now apply log_order].
  intros D W.
  rewrite (hmac_inputs_resolved env req (Buffer (raw_body req)) P D).
  cbn [toString]. now rewrite Utf8Facts.roundtrip.
Qed.

(** C4.  A request with a valid signature and a well-formed body whose
    event name is one of the kinds listed in the comment of the third
    branch takes the last branch: the handler answers 400 "Unknown event
    name: ...", not 200. *)
Theorem C4_unhandled_kinds_unknown (env : option jsstring) (req : request)
    (payload : jsvalue) (eventName userId orderId identifier : jsstring) :
  method req = lit "POST" ->
  valid_signature env req ->
  Json.parse (Utf8.decode (raw_body req)) = inr payload ->
  webhook_event payload eventName userId orderId identifier ->
  In eventName unhandled_kinds ->
  snd (handler env req)
  = Responded (unknown_event eventName identifier orderId)
  /\ In (Dispatch UnknownName) (fst (handler env req)).
Proof.
  intros P V J W K. rewrite handler_accept by assumption.
  rewrite (after_verification_event _ payload eventName userId orderId
             identifier) by assumption.
  assert (R : recognized eventName = false
              /\ branch_of eventName = UnknownName).
  { cbn in K. repeat destruct K as [<-|K]; try (split; reflexivity).
    contradiction. }
  destruct R as [R1 R2]. rewrite R1, R2. split; [reflexivity|].
  cbn [fst]. do 3 right. now left.
Qed.

(** C5 (amended).  For every POST request whose body [buffer(req)] hands
    over as it was sent and is well-formed UTF-8, supplying the
    hexadecimal HMAC-SHA256 of the body under the configured secret as
    the x-signature header passes the verification: the digest is
    computed over the bytes of the body, the comparison returns true and
    the handler goes on to [JSON.parse]. *)
Theorem C5_signed_body_accepted (env : option jsstring) (req : request) :
  method req = lit "POST" ->
  delivered req ->
  Utf8.well_formed (raw_body req) = true ->
  provider_signed env req ->
  exists l,
    fst (handler env req)
    = HmacUpdate (Utf8.encode (signingSecret env)) (raw_body req)
      :: TimingSafeEqual
           (Utf8.encode
              (expected_signature (signingSecret env) (raw_body req)))
           (Utf8.encode
              (expected_signature (signingSecret env) (raw_body req)))
           (Some true)
      :: JsonParse (Utf8.decode (raw_body req)) :: l
    /\ forallb is_dispatch l = true.
Proof.
  intros P D W S.
  rewrite handler_accept
    by (assumption || now apply provider_signature_valid).
  cbn [fst].
  destruct (after_verification_log (Utf8.decode (raw_body req)))
    as (l & Hl & Hd).
  exists l. rewrite Hl. unfold hmac_call.
  rewrite DigestFacts.handler_digest_well_formed by assumption.
  rewrite Utf8Facts.roundtrip by assumption. auto.
Qed.

(** C6 (amended).  For every POST request whose body [buffer(req)] hands
    over as it was sent, is well-formed UTF-8, is signed in the
    x-signature header with its hexadecimal HMAC-SHA256 under the
    configured secret, and parses to a well-formed event named
    "order_created", the handler answers 200 [{ received: true }]. *)
Theorem C6_order_created (env : option jsstring) (req : request)
    (payload : jsvalue) (userId orderId identifier : jsstring) :
  method req = lit "POST" ->
  delivered req ->
  Utf8.well_formed (raw_body req) = true ->
  provider_signed env req ->
  Json.parse (Utf8.decode (raw_body req)) = inr payload ->
  webhook_event payload (lit "order_created") userId orderId identifier ->
  snd (handler env req) = Responded (Response 200 (Received true)).
Proof.
  intros P D U S J W.
  rewrite handler_accept
    by (assumption || now apply provider_signature_valid).
  now rewrite (after_verification_event _ payload (lit "order_created")
                 userId orderId identifier).
Qed.

(** C7 (amended).  For every POST request whose body [buffer(req)] hands
    over as it was sent, is well-formed UTF-8, is signed with its
    hexadecimal HMAC-SHA256 under the configured secret, and parses to a
    well-formed event whose name is not empty and is none of the names
    the specification counts as recognized, the handler answers 400 with
    the message "Unknown event name: <name> for order: <identifier>
    (<orderId>)". *)
Theorem C7_unknown_event (env : option jsstring) (req : request)
    (payload : jsvalue) (eventName userId orderId identifier : jsstring) :
  method req = lit "POST" ->
  delivered req ->
  Utf8.well_formed (raw_body req) = true ->
  provider_signed env req ->
  Json.parse (Utf8.decode (raw_body req)) = inr payload ->
  webhook_event payload eventName userId orderId identifier ->
  ~ In eventName named_in_specification ->
  eventName <> lit "" ->
  snd (handler env req)
  = Responded (json 400 (lit "Unknown event name: " ++ eventName
                         ++ lit " for order: " ++ identifier
                         ++ lit " (" ++ orderId ++ lit ")")).
Proof.
  intros P D U S J W N E.
  rewrite handler_accept
    by (assumption || now apply provider_signature_valid).
  rewrite (after_verification_event _ payload eventName userId orderId
             identifier) by assumption.
  assert (R : recognized eventName = false).
  { unfold recognized.
    destruct (jsstring_eqb eventName (lit "order_created")) eqn:E1.
    { apply jsstring_eqb_eq in E1. exfalso. apply N. now left. }
    destruct (jsstring_eqb eventName (lit "order_refunded")) eqn:E2.
    { apply jsstring_eqb_eq in E2. exfalso. apply N. right. now left. }
    destruct (jsstring_eqb eventName (lit "")) eqn:E3; [|reflexivity].
    apply jsstring_eqb_eq in E3. contradiction. }
  now rewrite R.
Qed.



(** C10 (amended).  For every POST request whose body [buffer(req)]
    hands over as it was sent, is well-formed UTF-8, is signed with its
    hexadecimal HMAC-SHA256 under the configured secret, and is JSON
    that lacks [meta.custom_data] or [data.attributes], the
    destructuring throws a [TypeError] before any branch is taken and
    the handler answers 400 with the message "Webhook error: " followed
    by the message of that error, whatever the event name. *)
Theorem C10_missing_nested_field (env : option jsstring) (req : request)
    (payload : jsvalue) :
  method req = lit "POST" ->
  delivered req ->
  Utf8.well_formed (raw_body req) = true ->
  provider_signed env req ->
  Json.parse (Utf8.decode (raw_body req)) = inr payload ->
  Get (Get payload (lit "meta")) (lit "custom_data") = JUndefined
  \/ Get (Get payload (lit "data")) (lit "attributes") = JUndefined ->
  exists v key,
    snd (handler env req)
    = Responded (json 400 (lit "Webhook error: "
                           ++ message_of (NullishProperty v key)))
    /\ forallb (fun e => negb (is_dispatch e)) (fst (handler env req))
       = true.
Proof.
  intros P D U S J H.
  rewrite handler_accept
    by (assumption || now apply provider_signature_valid).
  cbn [fst snd].
  unfold Handler.after_verification, JSON_parse. rewrite J.
  cbn [bind emit ret app].
  destruct H as [H|H];
    repeat first
      [ rewrite H; cbn [bind ret app];
        rewrite property_undefined; cbn [bind ret app];
        do 2 eexists; split; reflexivity
      | match goal with
        | |- context [Handler.property _ ?v ?k] =>
            destruct (property_cases v k) as [E|E]; rewrite E; clear E;
            cbn [bind ret app];
            [do 2 eexists; split; reflexivity|]
        end ].
Qed.

(** *** Further properties of the handler *)

(** X1.  A request whose method is not POST is answered 405 "Method not
    allowed" whatever its headers and body, and no call is made: no
    digest is computed and nothing is parsed. *)
Theorem X1_other_method (env : option jsstring) (req : request) :
  method req <> lit "POST" ->
  handler env req = ([], Responded (json 405 (lit "Method not allowed"))).
Proof. apply other_method_405. Qed.


(** X3.  The handler answers 200 [{ received: true }] exactly when the
    method is POST, [buffer(req)] resolves, the x-signature header is
    the digest the handler computes of the string it makes of the
    resolved value, that string is JSON whose [meta],
    [meta.custom_data], [data] and [data.attributes] are neither
    undefined nor null, and [meta.event_name] is one of the strings
    "order_created", "order_refunded" and "".  The properties [userId],
    [id] and [identifier] play no part. *)
Theorem X3_received_iff (env : option jsstring) (req : request) :
  snd (handler env req) = Responded received
  <-> (method req = lit "POST"
       /\ exists v,
            buffer req = Resolved v
            /\ x_signature req
               = Some (digest_of (signingSecret env) (toString v))
            /\ exists payload name,
                 Json.parse (toString v) = inr payload
                 /\ destructurable payload = true
                 /\ event_name_of payload = JString name
                 /\ recognized name = true).
Proof.
  split.
  - intros R.
    destruct (list_eq_dec Z.eq_dec (method req) (lit "POST")) as [P|P].
    2:{ rewrite other_method_405 in R by assumption. discriminate. }
    split; [exact P|].
    destruct (handler_post_cases env req P)
      as [(e & B & E)|(v & B & [[_ E]|[(X & _ & _ & E)|[(X & _ & _ & _ & E)
                                                       |[V E]]]])];
      rewrite E in R; clear E; cbn [snd] in R; try discriminate.
    { destruct e; discriminate. }
    exists v. split; [exact B|]. split; [exact V|].
    destruct (settled_outcome (toString v))
      as [[m E]|[[m E]|[_ H]]]; [rewrite E in R; discriminate ..|exact H].
  - intros (P & v & B & V & payload & name & J & D & N & R).
    rewrite (handler_accepted env req v) by assumption. cbn [snd].
    destruct (after_verification_branches _ payload J D)
      as [(name' & _ & _ & E)|(U & _)]; [now rewrite E|].
    rewrite (U name N) in R. discriminate.
Qed.

(** X4.  A POST request for which [buffer(req)] resolves and whose
    x-signature header has, encoded as UTF-8, another length than the 64
    bytes of the digest makes [crypto.timingSafeEqual] throw; the
    handler answers 400 with the message "Webhook error: " followed by
    the message of that [RangeError], after the digest and the
    comparison and nothing else. *)
Theorem X4_wrong_length (env : option jsstring) (req : request)
    (v : chunk) (X : jsstring) :
  method req = lit "POST" ->
  buffer req = Resolved v ->
  x_signature req = Some X ->
  length (Utf8.encode X) <> 64%nat ->
  handler env req
  = ([HmacUpdate (Utf8.encode (signingSecret env))
                 (Utf8.encode (toString v));
      TimingSafeEqual
        (Utf8.encode (digest_of (signingSecret env) (toString v)))
        (Utf8.encode X) None],
     Responded (json 400 (lit "Webhook error: "
                          ++ message_of TimingSafeEqualLength))).
Proof. apply length_mismatch_error. Qed.

(** X5.  On a POST request the comparison of the signature returns true
    exactly when [buffer(req)] resolves and the x-signature header is
    present and is, character by character, the lowercase hexadecimal
    HMAC-SHA256 digest of the UTF-8 encoding of the string the handler
    makes of the resolved value. *)
Theorem X5_accept_iff_digest (env : option jsstring) (req : request) :
  method req = lit "POST" ->
  existsb is_accept (fst (handler env req)) = true
  <-> exists v,
        buffer req = Resolved v
        /\ x_signature req
           = Some (hex (Hmac.sha256 (Utf8.encode (signingSecret env))
                          (Utf8.encode (toString v)))).
Proof. apply accepted_iff. Qed.

(** X6.  The handler uses what [buffer(req)] resolves with only through
    the string it makes of it: two requests with the same method and
    header for which [buffer] resolves with values of the same string
    get the same calls and the same response.  A Buffer that is not
    well-formed UTF-8 is so treated as the Buffer of its decoding. *)
Theorem X6_body_through_decoding (env : option jsstring)
    (req req' : request) (v v' : chunk) :
  method req = method req' ->
  x_signature req = x_signature req' ->
  buffer req = Resolved v ->
  buffer req' = Resolved v' ->
  toString v = toString v' ->
  handler env req = handler env req'.
Proof.
  intros M X R R' E. unfold Handler.handler, Handler.try_block.
  rewrite M, X, R, R'. cbn [await bind ret app]. cbn zeta.
  now rewrite E.
Qed.

(** X7.  On a POST request that passes the verification and whose body
    is JSON, a branch on the event name is reached exactly when the
    payload, [meta], [meta.custom_data], [data] and [data.attributes]
    are neither undefined nor null. *)
Theorem X7_branch_iff_destructurable (env : option jsstring)
    (req : request) (v : chunk) (payload : jsvalue) :
  method req = lit "POST" ->
  buffer req = Resolved v ->
  x_signature req = Some (digest_of (signingSecret env) (toString v)) ->
  Json.parse (toString v) = inr payload ->
  existsb is_dispatch (fst (handler env req)) = true
  <-> destructurable payload = true.
Proof.
  intros P B V J. rewrite (handler_accepted env req v) by assumption.
  cbn [fst].
  destruct (destructurable payload) eqn:D.
  - split; [reflexivity|]. intros _.
    destruct (after_verification_branches _ payload J D)
      as [(name & _ & _ & E)|(_ & r & E & _)]; now rewrite E.
  - destruct (after_verification_absent _ payload J D) as (w & key & E).
    rewrite E. split; discriminate.
Qed.

(** X8.  When [meta.event_name] is not a string (absent, a number, an
    object ...) none of the three comparisons holds: a request that
    passes the verification takes the last branch and is answered 400,
    never 200. *)
Theorem X8_event_name_not_string (env : option jsstring) (req : request)
    (v : chunk) (payload : jsvalue) :
  method req = lit "POST" ->
  buffer req = Resolved v ->
  x_signature req = Some (digest_of (signingSecret env) (toString v)) ->
  Json.parse (toString v) = inr payload ->
  destructurable payload = true ->
  (forall name, event_name_of payload <> JString name) ->
  In (Dispatch UnknownName) (fst (handler env req))
  /\ exists m, snd (handler env req) = Responded (json 400 m).
Proof.
  intros P B V J D N. rewrite (handler_accepted env req v) by assumption.
  cbn [fst snd].
  destruct (after_verification_branches _ payload J D)
    as [(name & E & _)|(_ & r & E & R)]; [now apply N in E|].
  rewrite E. split; [cbn [fst]; do 3 right; now left|].
  destruct R as [->|[m ->]]; eexists; reflexivity.
Qed.

(** X9.  On the last branch an absent [data.id] and an absent
    [data.attributes.identifier] are printed as "undefined": the message
    is "Unknown event name: <name> for order: undefined (undefined)". *)
Theorem X9_absent_fields_undefined (env : option jsstring) (req : request)
    (v : chunk) (payload : jsvalue) (name : jsstring) :
  method req = lit "POST" ->
  buffer req = Resolved v ->
  x_signature req = Some (digest_of (signingSecret env) (toString v)) ->
  Json.parse (toString v) = inr payload ->
  destructurable payload = true ->
  event_name_of payload = JString name ->
  recognized name = false ->
  Get (Get payload (lit "data")) (lit "id") = JUndefined ->
  Get (Get (Get payload (lit "data")) (lit "attributes")) (lit "identifier")
  = JUndefined ->
  snd (handler env req)
  = Responded (json 400 (lit "Unknown event name: " ++ name
                         ++ lit " for order: undefined (undefined)")).
Proof.
  intros P B V J D N R HI HA.
  rewrite (handler_accepted env req v) by assumption.
  rewrite (after_verification_present _ payload J D). cbn zeta.
  rewrite N, HI, HA. unfold recognized in R. cbn [strict_equal].
  apply orb_false_iff in R. destruct R as [R R3].
  apply orb_false_iff in R. destruct R as [R1 R2].
  rewrite R1, R2, R3. reflexivity.
Qed.

(** X10.  When the environment variable of the secret is unset, or set
    to the empty string, the key of the HMAC is the empty string: the
    hexadecimal HMAC-SHA256 under the empty key of a body that is
    well-formed UTF-8 and handed over as it was sent is accepted as its
    signature. *)
Theorem X10_unset_secret (env : option jsstring) (req : request) :
  env = None \/ env = Some [] ->
  method req = lit "POST" ->
  delivered req ->
  Utf8.well_formed (raw_body req) = true ->
  x_signature req = Some (hex (Hmac.sha256 [] (raw_body req))) ->
  existsb is_accept (fst (handler env req)) = true.
Proof.
  intros E P D W HX. apply accepted_iff; [exact P|].
  exists (Buffer (raw_body req)). split; [exact D|].
  apply (provider_signature_valid env req D W).
  unfold provider_signed. rewrite HX.
  destruct E as [->| ->]; reflexivity.
Qed.

(** X11.  The handler answers 400 "Invalid signature." exactly when the
    method is POST, [buffer(req)] resolves, and the x-signature header
    is present, has, encoded as UTF-8, the 64 bytes of the digest, and
    differs from the digest the handler computes. *)
Theorem X11_invalid_signature_iff (env : option jsstring) (req : request) :
  snd (handler env req) = Responded invalid_signature
  <-> (method req = lit "POST"
       /\ exists v X,
            buffer req = Resolved v
            /\ x_signature req = Some X
            /\ length (Utf8.encode X) = 64%nat
            /\ X <> digest_of (signingSecret env) (toString v)).
Proof.
  split.
  - intros R.
    destruct (list_eq_dec Z.eq_dec (method req) (lit "POST")) as [P|P].
    2:{ rewrite other_method_405 in R by assumption. discriminate. }
    split; [exact P|].
    destruct (handler_post_cases env req P)
      as [(e & B & E)|(v & B & [[_ E]|[(X & _ & _ & E)
                                      |[(X & HX & L & N & _)|[V E]]]])];
      try (rewrite E in R; clear E; cbn in R; discriminate).
    + rewrite E in R. destruct e; cbn in R; discriminate.
    + exists v, X. auto.
    + rewrite E in R. cbn [snd] in R.
      destruct (settled_outcome (toString v))
        as [[m E']|[[m E']|[E' _]]]; rewrite E' in R; cbn in R;
        discriminate.
  - intros (P & v & X & B & HX & L & N).
    now rewrite (mismatch_rejected env req v X).
Qed.

End HandlerFacts.

(** ** The claims on the examples of the specification *)

Lemma jsstring_neq (s t : jsstring) : jsstring_eqb s t = false -> s <> t.
Proof.
  unfold jsstring_eqb. destruct (list_eq_dec Z.eq_dec s t);
    [discriminate|auto].
Qed.

(** The scenario of the specification is answered 200. *)
Lemma C6_witness :
  method order_created_request = lit "POST"
  /\ delivered order_created_request
  /\ Utf8.well_formed (raw_body order_created_request) = true
  /\ provider_signed example_secret order_created_request
  /\ Json.parse (Utf8.decode (raw_body order_created_request))
     = inr (example_payload "order_created" true)
  /\ webhook_event (example_payload "order_created" true)
       (lit "order_created") (lit "u1") (lit "o1") (lit "ORD-1")
  /\ snd (node_handler example_secret order_created_request)
     = Responded (Response 200 (Received true)).
Proof.
  assert (P : method order_created_request = lit "POST") by read_request.
  assert (D : delivered order_created_request) by read_request.
  assert (U : Utf8.well_formed (raw_body order_created_request) = true)
    by (vm_compute; reflexivity).
  assert (S : provider_signed example_secret order_created_request)
    by read_request.
  assert (J : Json.parse (Utf8.decode (raw_body order_created_request))
              = inr (example_payload "order_created" true))
    by (vm_compute; reflexivity).
  assert (W : webhook_event (example_payload "order_created" true)
                (lit "order_created") (lit "u1") (lit "o1") (lit "ORD-1"))
    by (vm_compute; auto).
  split; [exact P|]. split; [exact D|]. split; [exact U|].
  split; [exact S|]. split; [exact J|]. split; [exact W|].
  exact (C6_order_created Node.message Node.number_to_string
           example_secret order_created_request _ _ _ _ P D U S J W).
Defined.

(** The same event with the byte FF for the user, which is not UTF-8:
    the body parses to a well-formed event named "order_created" and
    carries the provider's signature, and is answered 400 "Invalid
    signature.". *)
Lemma C6_counterexample :
  method ill_formed_created_request = lit "POST"
  /\ delivered ill_formed_created_request
  /\ provider_signed example_secret ill_formed_created_request
  /\ Json.parse (Utf8.decode (raw_body ill_formed_created_request))
     = inr (ill_formed_payload "order_created")
  /\ webhook_event (ill_formed_payload "order_created")
       (lit "order_created") [0xFFFD] (lit "o1") (lit "ORD-1")
  /\ snd (node_handler example_secret ill_formed_created_request)
     = Responded invalid_signature
  /\ snd (node_handler example_secret ill_formed_created_request)
     <> Responded (Response 200 (Received true)).
Proof.
  assert (R : snd (node_handler example_secret ill_formed_created_request)
              = Responded invalid_signature)
    by (vm_compute; reflexivity).
  split; [read_request|]. split; [read_request|]. split; [read_request|].
  split; [vm_compute; reflexivity|]. split; [vm_compute; auto|].
  split; [exact R|]. rewrite R. discriminate.
Qed.

(** A signature of 64 zeros on the example body is rejected. *)
Lemma C1_witness :
  method tampered_request = lit "POST"
  /\ delivered tampered_request
  /\ x_signature tampered_request = Some wrong_signature
  /\ Utf8.well_formed (raw_body tampered_request) = true
  /\ length (Utf8.encode wrong_signature) = 64%nat
  /\ wrong_signature
     <> expected_signature (signingSecret example_secret)
          (raw_body tampered_request)
  /\ snd (node_handler example_secret tampered_request)
     = Responded invalid_signature
  /\ stopped_at_verification
       (fst (node_handler example_secret tampered_request)).
Proof.
  assert (P : method tampered_request = lit "POST") by read_request.
  assert (D : delivered tampered_request) by read_request.
  assert (HX : x_signature tampered_request = Some wrong_signature)
    by read_request.
  assert (W : Utf8.well_formed (raw_body tampered_request) = true)
    by (vm_compute; reflexivity).
  assert (L : length (Utf8.encode wrong_signature) = 64%nat)
    by (vm_compute; reflexivity).
  assert (N : wrong_signature
              <> expected_signature (signingSecret example_secret)
                   (raw_body tampered_request))
    by (apply jsstring_neq; vm_compute; reflexivity).
  split; [exact P|]. split; [exact D|]. split; [exact HX|].
  split; [exact W|]. split; [exact L|]. split; [exact N|].
  exact (C1_mismatch_rejected Node.message Node.number_to_string
           example_secret tampered_request wrong_signature P D HX W L N).
Defined.

(** The body FF with the digest the handler computes for it as
    signature: the signature is not the HMAC-SHA256 of the body, yet the
    handler accepts it and goes on to parse. *)
Lemma C1_counterexample :
  handler_digest (signingSecret example_secret) ill_formed_body
  <> expected_signature (signingSecret example_secret) ill_formed_body
  /\ snd (node_handler example_secret
            (post (Some (handler_digest (signingSecret example_secret)
                           ill_formed_body))
                  ill_formed_body))
     = Responded (json 400 (lit "Webhook error: Unexpected token "
                            ++ [0xFFFD] ++ lit " in JSON at position 0"))
  /\ ~ stopped_at_verification
         (fst (node_handler example_secret
                 (post (Some (handler_digest (signingSecret example_secret)
                                ill_formed_body))
                       ill_formed_body))).
Proof.
  split; [apply jsstring_neq; vm_compute; reflexivity|].
  split; [vm_compute; reflexivity|].
  unfold stopped_at_verification. vm_compute. discriminate.
Qed.

(** On the example request the digest is taken over the body, and the
    body is parsed after the comparison; on the request with the
    signature of 64 zeros no comparison returns true, and nothing is
    parsed. *)
Lemma C3_witness :
  (method order_created_request = lit "POST"
   /\ delivered order_created_request
   /\ Utf8.well_formed (raw_body order_created_request) = true
   /\ hmac_inputs (fst (node_handler example_secret order_created_request))
      = [raw_body order_created_request]
   /\ parsed_only_after_accept
        (fst (node_handler example_secret order_created_request)))
  /\ (method tampered_request = lit "POST"
      /\ existsb is_accept
           (fst (node_handler example_secret tampered_request)) = false
      /\ stopped_at_verification
           (fst (node_handler example_secret tampered_request))).
Proof.
  assert (P : method order_created_request = lit "POST") by read_request.
  assert (D : delivered order_created_request) by read_request.
  assert (U : Utf8.well_formed (raw_body order_created_request) = true)
    by (vm_compute; reflexivity).
  assert (P' : method tampered_request = lit "POST") by read_request.
  assert (A : existsb is_accept
                (fst (node_handler example_secret tampered_request)) = false)
    by (vm_compute; reflexivity).
  pose proof (C3_digest_then_parse Node.message Node.number_to_string
                example_secret order_created_request P) as T.
  pose proof (C3_digest_then_parse Node.message Node.number_to_string
                example_secret tampered_request P') as T'.
  split.
  - split; [exact P|]. split; [exact D|]. split; [exact U|].
    split; [exact (proj1 T D U)|exact (proj1 (proj2 T))].
  - split; [exact P'|]. split; [exact A|].
    exact (proj2 (proj2 T') A).
Defined.

(** For the body FF the digest is taken over EF BF BD. *)
Lemma C3_counterexample :
  hmac_inputs
    (fst (node_handler example_secret (post (Some (lit "x")) ill_formed_body)))
  = [[0xEF; 0xBF; 0xBD]]
  /\ hmac_inputs
       (fst (node_handler example_secret
               (post (Some (lit "x")) ill_formed_body)))
     <> [ill_formed_body].
Proof.
  split; [vm_compute; reflexivity|]. vm_compute. discriminate.
Qed.

(** The example body with event name "subscription_created", signed,
    is answered 400. *)
Lemma C4_witness :
  method subscription_request = lit "POST"
  /\ valid_signature example_secret subscription_request
  /\ Json.parse (Utf8.decode (raw_body subscription_request))
     = inr (example_payload "subscription_created" true)
  /\ webhook_event (example_payload "subscription_created" true)
       (lit "subscription_created") (lit "u1") (lit "o1") (lit "ORD-1")
  /\ In (lit "subscription_created") unhandled_kinds
  /\ snd (node_handler example_secret subscription_request)
     = Responded (unknown_event (lit "subscription_created") (lit "ORD-1")
                    (lit "o1"))
  /\ In (Dispatch UnknownName)
        (fst (node_handler example_secret subscription_request)).
Proof.
  assert (P : method subscription_request = lit "POST") by read_request.
  assert (V : valid_signature example_secret subscription_request)
    by (split; [read_request|vm_compute; reflexivity]).
  assert (J : Json.parse (Utf8.decode (raw_body subscription_request))
              = inr (example_payload "subscription_created" true))
    by (vm_compute; reflexivity).
  assert (W : webhook_event (example_payload "subscription_created" true)
                (lit "subscription_created") (lit "u1") (lit "o1")
                (lit "ORD-1"))
    by (vm_compute; auto).
  assert (K : In (lit "subscription_created") unhandled_kinds)
    by (left; reflexivity).
  split; [exact P|]. split; [exact V|]. split; [exact J|].
  split; [exact W|]. split; [exact K|].
  exact (C4_unhandled_kinds_unknown Node.message Node.number_to_string
           example_secret subscription_request _ _ _ _ _ P V J W K).
Defined.

(** The signed example body passes the verification. *)
Lemma C5_witness :
  method order_created_request = lit "POST"
  /\ delivered order_created_request
  /\ Utf8.well_formed (raw_body order_created_request) = true
  /\ provider_signed example_secret order_created_request
  /\ exists l,
       fst (node_handler example_secret order_created_request)
       = HmacUpdate (Utf8.encode (signingSecret example_secret))
                    (raw_body order_created_request)
         :: TimingSafeEqual
              (Utf8.encode (expected_signature (signingSecret example_secret)
                              (raw_body order_created_request)))
              (Utf8.encode (expected_signature (signingSecret example_secret)
                              (raw_body order_created_request)))
              (Some true)
         :: JsonParse (Utf8.decode (raw_body order_created_request)) :: l
       /\ forallb is_dispatch l = true.
Proof.
  assert (P : method order_created_request = lit "POST") by read_request.
  assert (D : delivered order_created_request) by read_request.
  assert (U : Utf8.well_formed (raw_body order_created_request) = true)
    by (vm_compute; reflexivity).
  assert (S : provider_signed example_secret order_created_request)
    by read_request.
  split; [exact P|]. split; [exact D|]. split; [exact U|].
  split; [exact S|].
  exact (C5_signed_body_accepted Node.message Node.number_to_string
           example_secret order_created_request P D U S).
Defined.

(** The body FF signed with its HMAC-SHA256 is rejected. *)
Lemma C5_counterexample :
  node_handler example_secret (signed example_secret ill_formed_body)
  = ([HmacUpdate (lit "abc123") [0xEF; 0xBF; 0xBD];
      TimingSafeEqual
        (handler_digest (lit "abc123") ill_formed_body)
        (expected_signature (lit "abc123") ill_formed_body)
        (Some false)],
     Responded invalid_signature).
Proof. vm_compute. reflexivity. Qed.

(** The example body with event name "order_deleted", signed. *)
Lemma C7_witness :
  method order_deleted_request = lit "POST"
  /\ delivered order_deleted_request
  /\ Utf8.well_formed (raw_body order_deleted_request) = true
  /\ provider_signed example_secret order_deleted_request
  /\ Json.parse (Utf8.decode (raw_body order_deleted_request))
     = inr (example_payload "order_deleted" true)
  /\ webhook_event (example_payload "order_deleted" true)
       (lit "order_deleted") (lit "u1") (lit "o1") (lit "ORD-1")
  /\ ~ In (lit "order_deleted") named_in_specification
  /\ lit "order_deleted" <> lit ""
  /\ snd (node_handler example_secret order_deleted_request)
     = Responded (json 400 (lit "Unknown event name: " ++ lit "order_deleted"
                            ++ lit " for order: " ++ lit "ORD-1"
                            ++ lit " (" ++ lit "o1" ++ lit ")")).
Proof.
  assert (P : method order_deleted_request = lit "POST") by read_request.
  assert (D : delivered order_deleted_request) by read_request.
  assert (U : Utf8.well_formed (raw_body order_deleted_request) = true)
    by (vm_compute; reflexivity).
  assert (S : provider_signed example_secret order_deleted_request)
    by read_request.
  assert (J : Json.parse (Utf8.decode (raw_body order_deleted_request))
              = inr (example_payload "order_deleted" true))
    by (vm_compute; reflexivity).
  assert (W : webhook_event (example_payload "order_deleted" true)
                (lit "order_deleted") (lit "u1") (lit "o1") (lit "ORD-1"))
    by (vm_compute; auto).
  assert (N : ~ In (lit "order_deleted") named_in_specification)
    by (vm_compute; intuition discriminate).
  assert (E : lit "order_deleted" <> lit "")
    by (vm_compute; discriminate).
  split; [exact P|]. split; [exact D|]. split; [exact U|].
  split; [exact S|]. split; [exact J|]. split; [exact W|].
  split; [exact N|]. split; [exact E|].
  exact (C7_unknown_event Node.message Node.number_to_string
           example_secret order_deleted_request _ _ _ _ _ P D U S J W N E).
Defined.

(** The same event with the byte FF for the user: it carries the
    provider's signature and a name that is not recognized, and is
    answered 400 "Invalid signature.". *)
Lemma C7_counterexample :
  method ill_formed_deleted_request = lit "POST"
  /\ delivered ill_formed_deleted_request
  /\ provider_signed example_secret ill_formed_deleted_request
  /\ Json.parse (Utf8.decode (raw_body ill_formed_deleted_request))
     = inr (ill_formed_payload "order_deleted")
  /\ webhook_event (ill_formed_payload "order_deleted")
       (lit "order_deleted") [0xFFFD] (lit "o1") (lit "ORD-1")
  /\ ~ In (lit "order_deleted") named_in_specification
  /\ recognized (lit "order_deleted") = false
  /\ snd (node_handler example_secret ill_formed_deleted_request)
     = Responded invalid_signature
  /\ snd (node_handler example_secret ill_formed_deleted_request)
     <> Responded (json 400 (lit "Unknown event name: order_deleted for order: ORD-1 (o1)")).
Proof.
  assert (R : snd (node_handler example_secret ill_formed_deleted_request)
              = Responded invalid_signature)
    by (vm_compute; reflexivity).
  split; [read_request|]. split; [read_request|]. split; [read_request|].
  split; [vm_compute; reflexivity|]. split; [vm_compute; auto|].
  split; [vm_compute; intuition discriminate|].
  split; [vm_compute; reflexivity|].
  split; [exact R|]. rewrite R. vm_compute. discriminate.
Qed.


(** What the handler answers to the opening brace. *)
Lemma truncated_body_response :
  snd (node_handler example_secret truncated_request)
  = Responded (json 400 (lit "Webhook error: Unexpected end of JSON input")).
Proof. vm_compute. reflexivity. Qed.




(** The example body without [meta.custom_data], signed. *)
Lemma C10_witness :
  method without_custom_data_request = lit "POST"
  /\ delivered without_custom_data_request
  /\ Utf8.well_formed (raw_body without_custom_data_request) = true
  /\ provider_signed example_secret without_custom_data_request
  /\ Json.parse (Utf8.decode (raw_body without_custom_data_request))
     = inr (example_payload "order_created" false)
  /\ (Get (Get (example_payload "order_created" false) (lit "meta"))
          (lit "custom_data") = JUndefined
      \/ Get (Get (example_payload "order_created" false) (lit "data"))
             (lit "attributes") = JUndefined)
  /\ exists v key,
       snd (node_handler example_secret without_custom_data_request)
       = Responded (json 400 (lit "Webhook error: "
                              ++ Node.message (NullishProperty v key)))
       /\ forallb (fun e => negb (is_dispatch e))
            (fst (node_handler example_secret without_custom_data_request))
          = true.
Proof.
  assert (P : method without_custom_data_request = lit "POST")
    by read_request.
  assert (D : delivered without_custom_data_request) by read_request.
  assert (U : Utf8.well_formed (raw_body without_custom_data_request) = true)
    by (vm_compute; reflexivity).
  assert (S : provider_signed example_secret without_custom_data_request)
    by read_request.
  assert (J : Json.parse (Utf8.decode (raw_body without_custom_data_request))
              = inr (example_payload "order_created" false))
    by (vm_compute; reflexivity).
  assert (H : Get (Get (example_payload "order_created" false) (lit "meta"))
                  (lit "custom_data") = JUndefined
              \/ Get (Get (example_payload "order_created" false) (lit "data"))
                     (lit "attributes") = JUndefined)
    by (left; vm_compute; reflexivity).
  split; [exact P|]. split; [exact D|]. split; [exact U|].
  split; [exact S|]. split; [exact J|]. split; [exact H|].
  exact (C10_missing_nested_field Node.message Node.number_to_string
           example_secret without_custom_data_request _ P D U S J H).
Defined.

(** What the handler answers to it. *)
Lemma without_custom_data_response :
  snd (node_handler example_secret without_custom_data_request)
  = Responded (json 400 (lit "Webhook error: Cannot read properties of undefined (reading 'userId')")).
Proof. vm_compute. reflexivity. Qed.

(** An event without [meta.custom_data] whose [data.id] is the byte FF,
    with the provider's signature: the answer is 400 "Invalid
    signature.", not a message that begins with "Webhook error:". *)
Lemma C10_counterexample :
  method ill_formed_without_custom_data_request = lit "POST"
  /\ delivered ill_formed_without_custom_data_request
  /\ provider_signed example_secret ill_formed_without_custom_data_request
  /\ Json.parse
       (Utf8.decode (raw_body ill_formed_without_custom_data_request))
     = inr ill_formed_payload_without_custom_data
  /\ Get (Get ill_formed_payload_without_custom_data (lit "meta"))
         (lit "custom_data") = JUndefined
  /\ snd (node_handler example_secret ill_formed_without_custom_data_request)
     = Responded invalid_signature
  /\ forall detail,
       snd (node_handler example_secret
              ill_formed_without_custom_data_request)
       <> Responded (json 400 (lit "Webhook error:" ++ detail)).
Proof.
  assert (R : snd (node_handler example_secret
                     ill_formed_without_custom_data_request)
              = Responded invalid_signature)
    by (vm_compute; reflexivity).
  split; [read_request|]. split; [read_request|]. split; [read_request|].
  split; [vm_compute; reflexivity|]. split; [vm_compute; reflexivity|].
  split; [exact R|]. intros detail. rewrite R. cbn. discriminate.
Qed.

(** A request without the header, and one with a header of three
    characters. *)
Lemma missing_header_response :
  snd (node_handler example_secret (post None (example_body "order_created")))
  = Responded (json 400 (lit "Webhook error: The first argument must be of type string or an instance of Buffer, ArrayBuffer, or Array or an Array-like Object. Received undefined")).
Proof. vm_compute. reflexivity. Qed.

Lemma short_header_response :
  snd (node_handler example_secret
         (post (Some (lit "abc")) (example_body "order_created")))
  = Responded (json 400 (lit "Webhook error: Input buffers must have the same byte length")).
Proof. vm_compute. reflexivity. Qed.

(** The example body with the empty event name is answered 200: the
    third branch is taken. *)
Lemma empty_event_name_response :
  node_handler example_secret empty_name_request
  = ([hmac_call (lit "abc123") (raw_body empty_name_request);
      TimingSafeEqual
        (handler_digest (lit "abc123") (raw_body empty_name_request))
        (handler_digest (lit "abc123") (raw_body empty_name_request))
        (Some true);
      JsonParse (Utf8.decode (raw_body empty_name_request));
      Dispatch EmptyName],
     Responded received).
Proof. vm_compute. reflexivity. Qed.

(** ** Requests that micro does not hand over as they were sent *)

(** A Content-Type header that cannot be parsed and a body of more than
    1mb: nothing is computed, the message of micro's [Error] is
    echoed. *)
Lemma malformed_content_type_response :
  node_handler example_secret malformed_content_type_request
  = ([], Responded (json 400 (lit "Webhook error: invalid media type"))).
Proof. vm_compute. reflexivity. Qed.

Lemma oversized_response :
  node_handler example_secret oversized_request
  = ([], Responded (json 400 (lit "Webhook error: Body exceeded 1mb limit"))).
Proof. lazy. reflexivity. Qed.

(** A body that is well-formed UTF-8 and carries the provider's
    signature, sent with [charset=iso-8859-1]: the digest is taken over
    the UTF-8 encoding of the string micro has decoded, C3 83 C2 A9 for
    the bytes C3 A9, and the answer is 400 "Invalid signature.". *)
Lemma latin1_response :
  Utf8.well_formed (raw_body latin1_request) = true
  /\ provider_signed example_secret latin1_request
  /\ hmac_inputs (fst (node_handler example_secret latin1_request))
     = [Utf8.encode (dq "{'a':'") ++ [0xC3; 0x83; 0xC2; 0xA9]
        ++ Utf8.encode (dq "'}")]
  /\ snd (node_handler example_secret latin1_request)
     = Responded invalid_signature.
Proof.
  assert (R : node_handler example_secret latin1_request
              = ([HmacUpdate
                    (lit "abc123")
                    (Utf8.encode (dq "{'a':'") ++ [0xC3; 0x83; 0xC2; 0xA9]
                     ++ Utf8.encode (dq "'}"));
                  TimingSafeEqual
                    (digest_of (lit "abc123") (latin1 accented_body))
                    (expected_signature (lit "abc123") accented_body)
                    (Some false)],
                 Responded invalid_signature))
    by (vm_compute; reflexivity).
  split; [vm_compute; reflexivity|]. split; [read_request|].
  rewrite R. split; reflexivity.
Qed.

(** ** The further properties on examples *)

(** The example request sent with GET. *)
Lemma X1_witness :
  method get_request <> lit "POST"
  /\ node_handler example_secret get_request
     = ([], Responded (json 405 (lit "Method not allowed"))).
Proof.
  assert (N : method get_request <> lit "POST")
    by (apply jsstring_neq; vm_compute; reflexivity).
  split; [exact N|].
  exact (X1_other_method Node.message Node.number_to_string
           example_secret get_request N).
Defined.

(** A signed body with event name "order_refunded" and none of
    [userId], [id] and [identifier] is answered 200. *)
Lemma X3_witness :
  (method refunded_bare_request = lit "POST"
   /\ exists v,
        buffer refunded_bare_request = Resolved v
        /\ x_signature refunded_bare_request
           = Some (digest_of (signingSecret example_secret) (toString v))
        /\ exists payload name,
             Json.parse (toString v) = inr payload
             /\ destructurable payload = true
             /\ event_name_of payload = JString name
             /\ recognized name = true)
  /\ snd (node_handler example_secret refunded_bare_request)
     = Responded received.
Proof.
  assert (H : method refunded_bare_request = lit "POST"
              /\ exists v,
                   buffer refunded_bare_request = Resolved v
                   /\ x_signature refunded_bare_request
                      = Some (digest_of (signingSecret example_secret)
                                (toString v))
                   /\ exists payload name,
                        Json.parse (toString v) = inr payload
                        /\ destructurable payload = true
                        /\ event_name_of payload = JString name
                        /\ recognized name = true).
  { split; [read_request|].
    exists (Buffer (raw_body refunded_bare_request)).
    split; [read_request|].
    split; [vm_compute; reflexivity|].
    exists (bare_payload (JString (lit "order_refunded"))).
    exists (lit "order_refunded").
    split; [vm_compute; reflexivity|]. split; [vm_compute; reflexivity|].
    split; vm_compute; reflexivity. }
  split; [exact H|].
  exact (proj2 (X3_received_iff Node.message Node.number_to_string
                  example_secret refunded_bare_request) H).
Defined.

(** The example body with the header "abc". *)
Lemma X4_witness :
  method short_signature_request = lit "POST"
  /\ buffer short_signature_request
     = Resolved (Buffer (raw_body short_signature_request))
  /\ x_signature short_signature_request = Some (lit "abc")
  /\ length (Utf8.encode (lit "abc")) <> 64%nat
  /\ node_handler example_secret short_signature_request
     = ([HmacUpdate
           (Utf8.encode (signingSecret example_secret))
           (Utf8.encode
              (toString (Buffer (raw_body short_signature_request))));
         TimingSafeEqual
           (Utf8.encode
              (digest_of (signingSecret example_secret)
                 (toString (Buffer (raw_body short_signature_request)))))
           (Utf8.encode (lit "abc")) None],
        Responded (json 400 (lit "Webhook error: "
                             ++ Node.message TimingSafeEqualLength))).
Proof.
  assert (P : method short_signature_request = lit "POST") by read_request.
  assert (B : buffer short_signature_request
              = Resolved (Buffer (raw_body short_signature_request)))
    by read_request.
  assert (HX : x_signature short_signature_request = Some (lit "abc"))
    by read_request.
  assert (L : length (Utf8.encode (lit "abc")) <> 64%nat)
    by (vm_compute; discriminate).
  split; [exact P|]. split; [exact B|]. split; [exact HX|].
  split; [exact L|].
  exact (X4_wrong_length Node.message Node.number_to_string
           example_secret short_signature_request _ (lit "abc") P B HX L).
Defined.

(** The comparison returns true on the example request, whose header is
    the digest of its body, and does not on the request sent with
    [charset=iso-8859-1]. *)
Lemma X5_witness :
  (method order_created_request = lit "POST"
   /\ (exists v,
         buffer order_created_request = Resolved v
         /\ x_signature order_created_request
            = Some (hex (Hmac.sha256
                           (Utf8.encode (signingSecret example_secret))
                           (Utf8.encode (toString v)))))
   /\ existsb is_accept
        (fst (node_handler example_secret order_created_request)) = true)
  /\ (method latin1_request = lit "POST"
      /\ existsb is_accept
           (fst (node_handler example_secret latin1_request)) <> true
      /\ ~ exists v,
             buffer latin1_request = Resolved v
             /\ x_signature latin1_request
                = Some (hex (Hmac.sha256
                               (Utf8.encode (signingSecret example_secret))
                               (Utf8.encode (toString v))))).
Proof.
  assert (P : method order_created_request = lit "POST") by read_request.
  assert (H : exists v,
            buffer order_created_request = Resolved v
            /\ x_signature order_created_request
               = Some (hex (Hmac.sha256
                              (Utf8.encode (signingSecret example_secret))
                              (Utf8.encode (toString v))))).
  { exists (Buffer (raw_body order_created_request)).
    split; [read_request|]. vm_compute. reflexivity. }
  assert (P' : method latin1_request = lit "POST") by read_request.
  assert (N : existsb is_accept
                (fst (node_handler example_secret latin1_request)) <> true)
    by (vm_compute; discriminate).
  pose proof (X5_accept_iff_digest Node.message Node.number_to_string
                example_secret order_created_request P) as T.
  pose proof (X5_accept_iff_digest Node.message Node.number_to_string
                example_secret latin1_request P') as T'.
  split.
  - split; [exact P|]. split; [exact H|]. exact (proj2 T H).
  - split; [exact P'|]. split; [exact N|].
    exact (fun H' => N (proj2 T' H')).
Defined.

(** The body FF is treated as the body EF BF BD: under the signature of
    the latter both get the same calls and the same answer. *)
Lemma X6_witness :
  method ill_formed_request = method replacement_request
  /\ x_signature ill_formed_request = x_signature replacement_request
  /\ buffer ill_formed_request = Resolved (Buffer ill_formed_body)
  /\ buffer replacement_request = Resolved (Buffer Utf8.replacement)
  /\ toString (Buffer ill_formed_body) = toString (Buffer Utf8.replacement)
  /\ node_handler example_secret ill_formed_request
     = node_handler example_secret replacement_request.
Proof.
  assert (M : method ill_formed_request = method replacement_request)
    by read_request.
  assert (X : x_signature ill_formed_request
              = x_signature replacement_request)
    by read_request.
  assert (R : buffer ill_formed_request = Resolved (Buffer ill_formed_body))
    by read_request.
  assert (R' : buffer replacement_request
               = Resolved (Buffer Utf8.replacement))
    by read_request.
  assert (E : toString (Buffer ill_formed_body)
              = toString (Buffer Utf8.replacement))
    by (vm_compute; reflexivity).
  split; [exact M|]. split; [exact X|]. split; [exact R|].
  split; [exact R'|]. split; [exact E|].
  exact (X6_body_through_decoding Node.message Node.number_to_string
           example_secret ill_formed_request replacement_request
           _ _ M X R R' E).
Defined.

Lemma ill_formed_body_accepted :
  existsb is_accept (fst (node_handler example_secret ill_formed_request))
  = true.
Proof. vm_compute. reflexivity. Qed.

(** A branch is reached on the body without leaf properties. *)
Lemma X7_witness :
  method refunded_bare_request = lit "POST"
  /\ buffer refunded_bare_request
     = Resolved (Buffer (raw_body refunded_bare_request))
  /\ x_signature refunded_bare_request
     = Some (digest_of (signingSecret example_secret)
               (toString (Buffer (raw_body refunded_bare_request))))
  /\ Json.parse (toString (Buffer (raw_body refunded_bare_request)))
     = inr (bare_payload (JString (lit "order_refunded")))
  /\ (existsb is_dispatch
        (fst (node_handler example_secret refunded_bare_request)) = true
      <-> destructurable (bare_payload (JString (lit "order_refunded")))
          = true).
Proof.
  assert (P : method refunded_bare_request = lit "POST") by read_request.
  assert (B : buffer refunded_bare_request
              = Resolved (Buffer (raw_body refunded_bare_request)))
    by read_request.
  assert (V : x_signature refunded_bare_request
              = Some (digest_of (signingSecret example_secret)
                        (toString (Buffer (raw_body refunded_bare_request)))))
    by (vm_compute; reflexivity).
  assert (J : Json.parse (toString (Buffer (raw_body refunded_bare_request)))
              = inr (bare_payload (JString (lit "order_refunded"))))
    by (vm_compute; reflexivity).
  split; [exact P|]. split; [exact B|]. split; [exact V|].
  split; [exact J|].
  exact (X7_branch_iff_destructurable Node.message Node.number_to_string
           example_secret refunded_bare_request _ _ P B V J).
Defined.

(** The event name 5, a number. *)
Lemma X8_witness :
  method numeric_bare_request = lit "POST"
  /\ buffer numeric_bare_request
     = Resolved (Buffer (raw_body numeric_bare_request))
  /\ x_signature numeric_bare_request
     = Some (digest_of (signingSecret example_secret)
               (toString (Buffer (raw_body numeric_bare_request))))
  /\ Json.parse (toString (Buffer (raw_body numeric_bare_request)))
     = inr (bare_payload (JNumber (lit "5")))
  /\ destructurable (bare_payload (JNumber (lit "5"))) = true
  /\ (forall name,
        event_name_of (bare_payload (JNumber (lit "5"))) <> JString name)
  /\ In (Dispatch UnknownName)
        (fst (node_handler example_secret numeric_bare_request))
  /\ exists m,
       snd (node_handler example_secret numeric_bare_request)
       = Responded (json 400 m).
Proof.
  assert (P : method numeric_bare_request = lit "POST") by read_request.
  assert (B : buffer numeric_bare_request
              = Resolved (Buffer (raw_body numeric_bare_request)))
    by read_request.
  assert (V : x_signature numeric_bare_request
              = Some (digest_of (signingSecret example_secret)
                        (toString (Buffer (raw_body numeric_bare_request)))))
    by (vm_compute; reflexivity).
  assert (J : Json.parse (toString (Buffer (raw_body numeric_bare_request)))
              = inr (bare_payload (JNumber (lit "5"))))
    by (vm_compute; reflexivity).
  assert (D : destructurable (bare_payload (JNumber (lit "5"))) = true)
    by (vm_compute; reflexivity).
  assert (N : forall name,
            event_name_of (bare_payload (JNumber (lit "5")))
            <> JString name)
    by (intros name H; vm_compute in H; discriminate H).
  split; [exact P|]. split; [exact B|]. split; [exact V|].
  split; [exact J|]. split; [exact D|]. split; [exact N|].
  exact (X8_event_name_not_string Node.message Node.number_to_string
           example_secret numeric_bare_request _ _ P B V J D N).
Defined.

Lemma numeric_event_name_response :
  snd (node_handler example_secret numeric_bare_request)
  = Responded (json 400 (lit "Unknown event name: 5 for order: undefined (undefined)")).
Proof. vm_compute. reflexivity. Qed.

(** The event name "ping" without [id] and [identifier]. *)
Lemma X9_witness :
  method ping_bare_request = lit "POST"
  /\ buffer ping_bare_request
     = Resolved (Buffer (raw_body ping_bare_request))
  /\ x_signature ping_bare_request
     = Some (digest_of (signingSecret example_secret)
               (toString (Buffer (raw_body ping_bare_request))))
  /\ Json.parse (toString (Buffer (raw_body ping_bare_request)))
     = inr (bare_payload (JString (lit "ping")))
  /\ destructurable (bare_payload (JString (lit "ping"))) = true
  /\ event_name_of (bare_payload (JString (lit "ping")))
     = JString (lit "ping")
  /\ recognized (lit "ping") = false
  /\ Get (Get (bare_payload (JString (lit "ping"))) (lit "data")) (lit "id")
     = JUndefined
  /\ Get (Get (Get (bare_payload (JString (lit "ping"))) (lit "data"))
               (lit "attributes")) (lit "identifier")
     = JUndefined
  /\ snd (node_handler example_secret ping_bare_request)
     = Responded (json 400 (lit "Unknown event name: " ++ lit "ping"
                            ++ lit " for order: undefined (undefined)")).
Proof.
  assert (P : method ping_bare_request = lit "POST") by read_request.
  assert (B : buffer ping_bare_request
              = Resolved (Buffer (raw_body ping_bare_request)))
    by read_request.
  assert (V : x_signature ping_bare_request
              = Some (digest_of (signingSecret example_secret)
                        (toString (Buffer (raw_body ping_bare_request)))))
    by (vm_compute; reflexivity).
  assert (J : Json.parse (toString (Buffer (raw_body ping_bare_request)))
              = inr (bare_payload (JString (lit "ping"))))
    by (vm_compute; reflexivity).
  assert (D : destructurable (bare_payload (JString (lit "ping"))) = true)
    by (vm_compute; reflexivity).
  assert (N : event_name_of (bare_payload (JString (lit "ping")))
              = JString (lit "ping"))
    by (vm_compute; reflexivity).
  assert (R : recognized (lit "ping") = false) by (vm_compute; reflexivity).
  assert (HI : Get (Get (bare_payload (JString (lit "ping"))) (lit "data"))
                   (lit "id") = JUndefined)
    by (vm_compute; reflexivity).
  assert (HA : Get (Get (Get (bare_payload (JString (lit "ping")))
                             (lit "data")) (lit "attributes"))
                   (lit "identifier") = JUndefined)
    by (vm_compute; reflexivity).
  split; [exact P|]. split; [exact B|]. split; [exact V|].
  split; [exact J|]. split; [exact D|]. split; [exact N|].
  split; [exact R|]. split; [exact HI|]. split; [exact HA|].
  exact (X9_absent_fields_undefined Node.message Node.number_to_string
           example_secret ping_bare_request _ _ _ P B V J D N R HI HA).
Defined.

(** Without a secret the example body signed under the empty key is
    accepted. *)
Lemma X10_witness :
  (@None jsstring = None \/ @None jsstring = Some [])
  /\ method empty_key_request = lit "POST"
  /\ delivered empty_key_request
  /\ Utf8.well_formed (raw_body empty_key_request) = true
  /\ x_signature empty_key_request
     = Some (hex (Hmac.sha256 [] (raw_body empty_key_request)))
  /\ existsb is_accept (fst (node_handler None empty_key_request)) = true.
Proof.
  assert (E : @None jsstring = None \/ @None jsstring = Some [])
    by (left; reflexivity).
  assert (P : method empty_key_request = lit "POST") by read_request.
  assert (D : delivered empty_key_request) by read_request.
  assert (W : Utf8.well_formed (raw_body empty_key_request) = true)
    by (vm_compute; reflexivity).
  assert (HX : x_signature empty_key_request
               = Some (hex (Hmac.sha256 [] (raw_body empty_key_request))))
    by read_request.
  split; [exact E|]. split; [exact P|]. split; [exact D|].
  split; [exact W|]. split; [exact HX|].
  exact (X10_unset_secret Node.message Node.number_to_string None
           empty_key_request E P D W HX).
Defined.

(** The signature of 64 zeros is answered "Invalid signature.". *)
Lemma X11_witness :
  (method tampered_request = lit "POST"
   /\ exists v X,
        buffer tampered_request = Resolved v
        /\ x_signature tampered_request = Some X
        /\ length (Utf8.encode X) = 64%nat
        /\ X <> digest_of (signingSecret example_secret) (toString v))
  /\ snd (node_handler example_secret tampered_request)
     = Responded invalid_signature.
Proof.
  assert (H : method tampered_request = lit "POST"
              /\ exists v X,
                   buffer tampered_request = Resolved v
                   /\ x_signature tampered_request = Some X
                   /\ length (Utf8.encode X) = 64%nat
                   /\ X <> digest_of (signingSecret example_secret)
                             (toString v)).
  { split; [read_request|].
    exists (Buffer (raw_body tampered_request)), wrong_signature.
    split; [read_request|]. split; [read_request|].
    split; [vm_compute; reflexivity|].
    apply jsstring_neq. vm_compute. reflexivity. }
  split; [exact H|].
  exact (proj2 (X11_invalid_signature_iff Node.message Node.number_to_string
                  example_secret tampered_request) H).
Defined.
